(** * compile_and_execute_template.py: a shallow embedding

    The script renders per-environment CloudFormation parameters from a
    Jinja2 parameter template and either writes them to a JSON file
    ([fill]) or applies them to a stack ([deploy]).

    The embedding follows the source function by function.  The program is
    glue code around libraries (getopt, yaml, jinja2, the Python evaluator,
    json, boto3) and the operating system (files, the random generator);
    those are taken as a record of externals, and every theorem is stated
    for all of their behaviours. *)

From Stdlib Require Import ZArith Ascii String.
From stdpp Require Import base option list strings gmap.

Local Open Scope string_scope.
Local Open Scope list_scope.

(** ** Python string methods used by the script *)

Module PyStr.

(** [s1.startswith(s2)], written [prefix s2 s1]. *)
Fixpoint prefix (p s : string) : bool :=
  match p, s with
  | EmptyString, _ => true
  | String a p', String b s' => if Ascii.eqb a b then prefix p' s' else false
  | String _ _, EmptyString => false
  end.

(** The scan of [str.replace] for a non-empty [old]: left to right,
    non-overlapping.  [skip] counts the characters of a match that are
    still to be dropped. *)
Fixpoint replace_go (old new : string) (skip : nat) (s : string) : string :=
  match s with
  | EmptyString => EmptyString
  | String c s' =>
      match skip with
      | S k => replace_go old new k s'
      | O =>
          if prefix old s
          then new +:+ replace_go old new (String.length old - 1) s'
          else String c (replace_go old new 0 s')
      end
  end.

(** For an empty [old] Python inserts [new] before every character and
    at the end. *)
Fixpoint interleave (new s : string) : string :=
  match s with
  | EmptyString => new
  | String c s' => new +:+ String c (interleave new s')
  end.

(** [s.replace(old, new)] *)
Definition replace (old new s : string) : string :=
  match old with
  | EmptyString => interleave new s
  | String _ _ => replace_go old new 0 s
  end.

(** [s.split(sep)] for a one-character separator: never empty. *)
Fixpoint split (sep : ascii) (s : string) : list string :=
  match s with
  | EmptyString => [EmptyString]
  | String c s' =>
      if Ascii.eqb c sep then EmptyString :: split sep s'
      else match split sep s' with
           | x :: xs => String c x :: xs
           | [] => [String c EmptyString]
           end
  end.

(** [l[-1]] on a list that [split] returned. *)
Definition last_item (l : list string) : string := List.last l EmptyString.

(** [c in s] for a character. *)
Fixpoint mem (c : ascii) (s : string) : bool :=
  match s with
  | EmptyString => false
  | String a s' => if Ascii.eqb a c then true else mem c s'
  end.

(** [seq[i]] with the index already in range. *)
Fixpoint nth (i : nat) (s : string) (d : ascii) : ascii :=
  match s, i with
  | EmptyString, _ => d
  | String c _, O => c
  | String _ s', S j => nth j s' d
  end.

(** [pat in s] *)
Fixpoint occurs (pat s : string) : bool :=
  prefix pat s
  || match s with
     | EmptyString => false
     | String _ s' => occurs pat s'
     end.

(** [s.endswith(c)] for a character. *)
Fixpoint ends_with (c : ascii) (s : string) : bool :=
  match s with
  | EmptyString => false
  | String a EmptyString => Ascii.eqb a c
  | String _ s' => ends_with c s'
  end.

End PyStr.

(** ** Python dicts: insertion-ordered, one entry per key *)

Module PyDict.
Section Dict.
Context {K V : Type} `{EqDecision K}.

Definition dict : Type := list (K * V).

Definition keys (d : dict) : list K := map fst d.

(** The dict invariant: no key twice. *)
Definition wf (d : dict) : Prop := NoDup (keys d).

(** [d.get(k)] *)
Fixpoint get (k : K) (d : dict) : option V :=
  match d with
  | [] => None
  | (k', v) :: d' => if decide (k = k') then Some v else get k d'
  end.

(** [d[k] = v]: an existing key keeps its position, a new one goes last. *)
Fixpoint setitem (k : K) (v : V) (d : dict) : dict :=
  match d with
  | [] => [(k, v)]
  | (k', v') :: d' =>
      if decide (k = k') then (k', v) :: d' else (k', v') :: setitem k v d'
  end.

(** [d.update(other)]: [d[k] = v] for every item of [other], in order. *)
Definition update (d other : dict) : dict :=
  fold_left (fun acc kv => setitem (fst kv) (snd kv) acc) other d.

End Dict.
Arguments dict : clear implicits.
End PyDict.

(** ** Values, exceptions and outcomes *)

(** The plain data that [yaml.safe_load] returns and that a rendered
    parameter list denotes.  Mappings are keyed by variable or field names. *)
#[warnings="-register-all"] Inductive pyvalue : Type :=
  | PyNone
  | PyBool (b : bool)
  | PyInt (z : Z)
  | PyStr (s : string)
  | PyList (items : list pyvalue)
  | PyDict (d : list (string * pyvalue)).

Abbreviation values := (PyDict.dict string pyvalue).

(** [type(v).__name__] *)
Definition type_name (v : pyvalue) : string :=
  match v with
  | PyNone => "NoneType"
  | PyBool _ => "bool"
  | PyInt _ => "int"
  | PyStr _ => "str"
  | PyList _ => "list"
  | PyDict _ => "dict"
  end.

(** Only the distinction that an [except] clause of the script makes. *)
Inductive exn_class : Type := ClientError | OtherError.

(** An exception with its [str(e)]. *)
Record exn : Type := Exn { exn_cls : exn_class; exn_str : string }.

Definition is_client_error (e : exn) : bool :=
  match exn_cls e with ClientError => true | OtherError => false end.

(** How a call ends: it returns, it raises an [Exception], or [SystemExit]
    is on its way up (which [except Exception] does not catch). *)
Inductive outcome (A : Type) : Type :=
  | Ret (a : A)
  | Raise (e : exn)
  | Exit (code : Z).
Arguments Ret {A} a.
Arguments Raise {A} e.
Arguments Exit {A} code.

(** ** What the process does to the outside *)

(** Requests to the stack service, with the keyword arguments of the call. *)
Inductive request : Type :=
  | DescribeStacks (StackName : string)
  | CreateChangeSet (StackName TemplateBody : string) (Parameters : pyvalue)
      (ChangeSetName : string) (Capabilities : list string)
  | WaitChangeSetCreateComplete (ChangeSetName StackName : string) (Delay : Z)
  | CreateStack (StackName TemplateBody : string) (Parameters : pyvalue)
      (Capabilities : list string)
  | WaitStackCreateComplete (StackName : string) (Delay : Z).

Inductive event : Type :=
  | Printed (line : string)      (* print(f'...') *)
  | PrintValue (v : pyvalue)     (* print(obj) *)
  | PrintTraceback               (* traceback.print_exc() *)
  | Code (effect : string)       (* a side effect of evaluated text *)
  | Remote (r : request).        (* a request sent to the stack service *)

Definition trace : Type := list event.

Definition is_remote (ev : event) : bool :=
  match ev with Remote _ => true | _ => false end.

Definition remote_requests (tr : trace) : list request :=
  omap (fun ev => match ev with Remote r => Some r | _ => None end) tr.

Definition code_effects (tr : trace) : list string :=
  omap (fun ev => match ev with Code c => Some c | _ => None end) tr.

Definition is_create_change_set (r : request) : bool :=
  match r with CreateChangeSet _ _ _ _ _ => true | _ => false end.

Definition is_create_stack (r : request) : bool :=
  match r with CreateStack _ _ _ _ => true | _ => false end.

(** The change-set name a request carries, if any. *)
Definition change_set_name_of (r : request) : option string :=
  match r with
  | CreateChangeSet _ _ _ n _ => Some n
  | WaitChangeSetCreateComplete n _ _ => Some n
  | _ => None
  end.

(** ** The libraries and the environment

    Everything the script calls but does not define.  A library call
    returns [inr] of its result or [inl] of the exception it raises. *)
Record externals : Type := Externals {
  (** [getopt.getopt(args, "he:t:a:", ["help", "environment=", "template=",
      "action="])] *)
  getopt : list string -> exn + (list (string * string) * list string);
  (** [yaml.safe_load] of a file's text *)
  yaml_safe_load : string -> exn + pyvalue;
  (** [jinja2.Template(text).render(values)] *)
  jinja2_render : string -> pyvalue -> exn + string;
  (** [eval(text)]: the side effects of evaluating the expression, and how
      the evaluation ends *)
  py_eval : string -> list string * outcome pyvalue;
  (** the requests that evaluating the text sends to the stack service on
      its own: the expression can import [boto3] and call a client *)
  py_eval_requests : string -> list request;
  (** [json.dumps(v, sort_keys=..., indent=...)] *)
  json_dumps : bool -> option nat -> pyvalue -> exn + string;
  (** [boto3.client('cloudformation')]: [Some e] when it raises *)
  boto3_client : option exn;
  (** the answer of the service to a request: [Some e] when the call raises *)
  remote : request -> option exn;
  (** the raw draws of the random generator *)
  random_draw : nat -> nat;
  (** [open(path, 'w')]: [Some e] when it raises *)
  open_w_error : string -> option exn
}.

(** The part of the world the process changes: the files, and how many
    random draws were taken. *)
Record state : Type := State {
  fs : gmap string string;
  draws : nat
}.

(** ** The monad of the script: state, output and exceptions *)

Definition M (A : Type) : Type := state -> outcome A * state * trace.

Definition ret {A} (a : A) : M A := fun st => (Ret a, st, []).

Definition bind {A B} (m : M A) (k : A -> M B) : M B := fun st =>
  match m st with
  | (Ret a, st1, t1) =>
      match k a st1 with (o, st2, t2) => (o, st2, (t1 ++ t2)) end
  | (Raise e, st1, t1) => (Raise e, st1, t1)
  | (Exit c, st1, t1) => (Exit c, st1, t1)
  end.

Notation "x <- m ;; k" := (bind m (fun x => k))
  (at level 100, m at next level, right associativity).
Notation "m ;;; k" := (bind m (fun _ => k))
  (at level 100, right associativity).

(** [raise e] *)
Definition raise {A} (e : exn) : M A := fun st => (Raise e, st, []).

(** [sys.exit(code)] *)
Definition sys_exit {A} (code : Z) : M A := fun st => (Exit code, st, []).

(** [try: body  except Exception as e: handler] *)
Definition try_except {A} (body : M A) (handler : exn -> M A) : M A := fun st =>
  match body st with
  | (Raise e, st1, t1) =>
      match handler e st1 with (o, st2, t2) => (o, st2, (t1 ++ t2)) end
  | r => r
  end.

(** [try: body  except ClientError: handler] *)
Definition try_except_ClientError {A} (body : M A) (handler : M A) : M A := fun st =>
  match body st with
  | (Raise e, st1, t1) =>
      if is_client_error e
      then match handler st1 with (o, st2, t2) => (o, st2, (t1 ++ t2)) end
      else (Raise e, st1, t1)
  | r => r
  end.

Definition emit (ev : event) : M unit := fun st => (Ret tt, st, [ev]).

Definition print (line : string) : M unit := emit (Printed line).

(** A library result becomes a return or a raise. *)
Definition lift {A} (r : exn + A) : M A :=
  match r with inl e => raise e | inr a => ret a end.

(** The status the operating system sees. *)
Definition exit_status {A} (o : outcome A) : Z :=
  match o with Ret _ => 0 | Exit c => c | Raise _ => 1 end.

(** ** The script *)

Definition COMMON_FILE_PATH : string := "cf_vars/common.yml".

(** [class Actions(Enum)] *)
Inductive Actions : Type := FILL | DEPLOY.

Definition Actions_value (a : Actions) : string :=
  match a with FILL => "fill" | DEPLOY => "deploy" end.

(** [str(a)] *)
Definition Actions_str (a : Actions) : string :=
  match a with FILL => "Actions.FILL" | DEPLOY => "Actions.DEPLOY" end.

Definition Actions_members : list Actions := [FILL; DEPLOY].

(** [string.ascii_uppercase + string.digits], the default of [chars] *)
Definition default_chars : string := "ABCDEFGHIJKLMNOPQRSTUVWXYZ0123456789".

(** The dict that [init_variables] builds has five fixed keys. *)
Record init_dict : Type := InitDict {
  valuesFile : string;
  templateFileName : string;
  jsonFile : string;
  stackName : string;
  stackBody : string
}.

(** [repr] of a list of strings without quotes or backslashes in them. *)
Definition repr_str_list (l : list string) : string :=
  "[" +:+ String.concat ", " (map (fun s => "'" +:+ s +:+ "'") l) +:+ "]".

(** [list(v)] *)
Definition py_list (v : pyvalue) : exn + pyvalue :=
  match v with
  | PyList items => inr (PyList items)
  | PyDict d => inr (PyList (map PyStr (PyDict.keys d)))
  | PyStr s =>
      inr (PyList (map (fun c => PyStr (String c EmptyString)) (list_ascii_of_string s)))
  | _ => inl (Exn OtherError ("'" +:+ type_name v +:+ "' object is not iterable"))
  end.

(** [custom_values.update(common_values)] on loaded documents; the object
    returned is [custom_values].  Documents that are not mappings make the
    call raise (the pair-sequence form of the argument is not modelled, and
    a document that loads as a set is not among the values). *)
Definition py_update (custom_values common_values : pyvalue) : exn + pyvalue :=
  match custom_values with
  | PyDict custom =>
      match common_values with
      | PyDict common => inr (PyDict (PyDict.update custom common))
      | _ => inl (Exn OtherError
                    ("'" +:+ type_name common_values +:+ "' object is not iterable"))
      end
  | _ => inl (Exn OtherError
                ("'" +:+ type_name custom_values +:+ "' object has no attribute 'update'"))
  end.

(** The names that [init_variables] computes from the template path. *)
Definition t_file_name_of (t : string) : string :=
  PyStr.last_item (PyStr.split "/"%char t).

Definition path_of (t : string) : string :=
  PyStr.replace (t_file_name_of t) EmptyString t.

Definition clean_name_of (t : string) : string :=
  PyStr.replace ".yml" EmptyString
    (PyStr.replace ".yaml" EmptyString (t_file_name_of t)).

Definition json_file_of (t : string) : string :=
  path_of t +:+ clean_name_of t +:+ ".json".

Definition values_file_of (env : string) : string :=
  "cf_vars/" +:+ env +:+ ".yml".

Definition stack_name_of (env t : string) : string :=
  "ct-" +:+ env +:+ "-base-" +:+ clean_name_of t +:+ "-stack".

(** The three variables that the option loop of [main] assigns. *)
Record cli : Type := Cli {
  environment : string;
  template : string;
  action : string
}.

Definition is_help (opt : string) : bool :=
  String.eqb opt "-h" || String.eqb opt "--help".

(** One round of the loop for an option that is not the help flag. *)
Definition assign (c : cli) (oa : string * string) : cli :=
  let '(opt, arg) := oa in
  if String.eqb opt "-e" || String.eqb opt "--environment"
  then Cli arg (template c) (action c)
  else if String.eqb opt "-t" || String.eqb opt "--template"
  then Cli (environment c) arg (action c)
  else if String.eqb opt "-a" || String.eqb opt "--action"
  then Cli (environment c) (template c) arg
  else c.

Section Script.
Context (X : externals).

(** *** Primitives *)

(** [os.path.isfile(path)]: a path is the text that names the file; two
    texts that the file system resolves to one file are two paths here. *)
Definition isfile (path : string) : M bool := fun st =>
  (Ret (bool_decide (is_Some (fs st !! path))), st, []).

(** [open(path).read()]: a file that exists can be read (permission and
    decoding errors are not modelled). *)
Definition open_read (path : string) : M string := fun st =>
  match fs st !! path with
  | Some text => (Ret text, st, [])
  | None =>
      (Raise (Exn OtherError
                ("[Errno 2] No such file or directory: '" +:+ path +:+ "'")),
       st, [])
  end.

(** [open(path, 'w')]: the file is created or truncated. *)
Definition open_write (path : string) : M unit := fun st =>
  match open_w_error X path with
  | Some e => (Raise e, st, [])
  | None => (Ret tt, State (<[path := EmptyString]> (fs st)) (draws st), [])
  end.

(** [file.write(text)] then [file.close()] on a file just opened. *)
Definition write_close (path text : string) : M unit := fun st =>
  (Ret tt, State (<[path := text]> (fs st)) (draws st), []).

(** [random.choice(chars)]: the element at the next draw, brought into
    range; an empty sequence raises and takes no draw. *)
Definition random_choice (chars : string) : M ascii := fun st =>
  match chars with
  | EmptyString =>
      (Raise (Exn OtherError "Cannot choose from an empty sequence"), st, [])
  | String c0 _ =>
      (Ret (PyStr.nth (random_draw X (draws st) mod String.length chars) chars c0),
       State (fs st) (S (draws st)), [])
  end.

(** [boto3.client('cloudformation')] *)
Definition client : M unit :=
  match boto3_client X with Some e => raise e | None => ret tt end.

(** A method call on the client: the request goes out, then the answer. *)
Definition call (r : request) : M unit := fun st =>
  match remote X r with
  | Some e => (Raise e, st, [Remote r])
  | None => (Ret tt, st, [Remote r])
  end.

(** [eval(text)]: what evaluating the text does, then how it ends.  The
    text can do anything; the model records its side effects as [Code]
    events and the requests it sends as [Remote] events, leaves the files of
    the state as they are, and has it end by a value, an [Exception] or
    [SystemExit] (no other [BaseException]). *)
Definition eval (text : string) : M pyvalue := fun st =>
  (snd (py_eval X text), st,
   map Code (fst (py_eval X text)) ++ map Remote (py_eval_requests X text)).

(** *** The functions of the script *)

Fixpoint id_generator (size : nat) (chars : string) : M string :=
  match size with
  | O => ret EmptyString
  | S n =>
      c <- random_choice chars ;;
      rest <- id_generator n chars ;;
      ret (String c rest)
  end.

(** [get_changes] is never called (its call in [create_change_set] is
    commented out) and is left out.  [cf.get_waiter(...)] builds a local
    object for a waiter name that exists and is folded into the wait call. *)
Definition stack_exists (stack_name : string) : M bool :=
  try_except_ClientError
    (client ;;;
     call (DescribeStacks stack_name) ;;;
     print (stack_name +:+ " stack found.") ;;;
     ret true)
    (print (stack_name +:+ " stack not found.") ;;;
     ret false).

Definition create_change_set (stack_name body : string) (parameters : pyvalue)
  : M unit :=
  try_except
    (client ;;;
     random_id <- id_generator 6 default_chars ;;
     let change_set_name := stack_name +:+ "-" +:+ random_id in
     call (CreateChangeSet stack_name body parameters change_set_name
             ["CAPABILITY_NAMED_IAM"]) ;;;
     call (WaitChangeSetCreateComplete change_set_name stack_name 10) ;;;
     print ("Change set " +:+ change_set_name +:+ " for stack "
            +:+ stack_name +:+ " created!") ;;;
     ret tt)
    (fun e =>
       print ("An error has occurred during the creation of the change set: "
              +:+ exn_str e) ;;;
       sys_exit 2).

Definition create_stack (stack_name body : string) (parameters : pyvalue)
  : M unit :=
  try_except
    (client ;;;
     call (CreateStack stack_name body parameters ["CAPABILITY_NAMED_IAM"]) ;;;
     call (WaitStackCreateComplete stack_name 10) ;;;
     print ("Stack " +:+ stack_name +:+ " created!") ;;;
     ret tt)
    (fun e =>
       print ("An error has occurred during the creation of the stack: "
              +:+ exn_str e) ;;;
       sys_exit 2).

Definition deploy_stack (init : init_dict) (json_parameters : pyvalue) : M unit :=
  try_except
    (let sn := stackName init in
     let body := stackBody init in
     print ("Checking if the " +:+ sn +:+ " stack exists.") ;;;
     found <- stack_exists sn ;;
     if found
     then
       print ("Creating change set for stack: " +:+ sn) ;;;
       create_change_set sn body json_parameters ;;;
       ret tt
     else
       print ("Stack " +:+ sn +:+ " does not exists, creating it...") ;;;
       create_stack sn body json_parameters ;;;
       ret tt)
    (fun e =>
       print ("An error has occurred during the stack creation: " +:+ exn_str e) ;;;
       sys_exit 2).

Definition merge_vars_file (init : init_dict) : M pyvalue :=
  try_except
    (common_text <- open_read COMMON_FILE_PATH ;;
     common_values <- lift (yaml_safe_load X common_text) ;;
     custom_text <- open_read (valuesFile init) ;;
     custom_values <- lift (yaml_safe_load X custom_text) ;;
     lift (py_update custom_values common_values))
    (fun e =>
       print ("An error has occurred merging the vars files: " +:+ exn_str e) ;;;
       sys_exit 2).

Definition fill_json (init : init_dict) : M pyvalue :=
  try_except
    (parameter_file <- open_read (jsonFile init) ;;
     vals <- merge_vars_file init ;;
     emit (PrintValue vals) ;;;
     rendered <- lift (jinja2_render X parameter_file vals) ;;
     evaluated <- eval rendered ;;
     lift (py_list evaluated))
    (fun e =>
       print ("An error has occurred filling the json file: " +:+ exn_str e) ;;;
       sys_exit 2).

Definition check_file (file : string) : M bool :=
  try_except
    (found <- isfile file ;;
     if negb found
     then raise (Exn OtherError ("File " +:+ file +:+ " does not exists!"))
     else ret true)
    (fun e =>
       print ("An error has occurred checking " +:+ file +:+ ": " +:+ exn_str e) ;;;
       sys_exit 2).

Definition save_to_file (name : string) (content : pyvalue) (extension : string)
  : M unit :=
  try_except
    (let file_name := name +:+ "." +:+ extension in
     open_write file_name ;;;
     text <- lift (json_dumps X true (Some 4) content) ;;
     write_close file_name text)
    (fun e =>
       print ("An error occurred during the save of json file: " +:+ exn_str e) ;;;
       sys_exit 2).

Definition init_variables (env t : string) : M init_dict :=
  try_except
    (let values_file := "cf_vars/" +:+ env +:+ ".yml" in
     check_file values_file ;;;
     check_file t ;;;
     let t_file_name := PyStr.last_item (PyStr.split "/"%char t) in
     let path := PyStr.replace t_file_name EmptyString t in
     let clean_name :=
       PyStr.replace ".yml" EmptyString
         (PyStr.replace ".yaml" EmptyString t_file_name) in
     let json_file := path +:+ clean_name +:+ ".json" in
     check_file json_file ;;;
     let stack_name := "ct-" +:+ env +:+ "-base-" +:+ clean_name +:+ "-stack" in
     stack_body <- open_read t ;;
     ret (InitDict values_file t_file_name json_file stack_name stack_body))
    (fun e =>
       print ("An error has occurred in init_variables: " +:+ exn_str e) ;;;
       sys_exit 2).

(** The [for opt, arg in opts] loop of [main]. *)
Fixpoint read_opts (arg_help : string) (opts : list (string * string)) (c : cli)
  : M cli :=
  match opts with
  | [] => ret c
  | (opt, arg) :: rest =>
      if is_help opt
      then print arg_help ;;; sys_exit 2
      else read_opts arg_help rest (assign c (opt, arg))
  end.

Definition arg_help_of (argv0 : string) : string :=
  argv0 +:+ " -e <environment> -t <template> -a <fill|deploy>".

Definition main (argv : list string) : M unit :=
  match argv with
  | [] => raise (Exn OtherError "list index out of range")
  | argv0 :: args =>
      let arg_help := arg_help_of argv0 in
      try_except
        (parsed <- lift (getopt X args) ;;
         c <- read_opts arg_help (fst parsed) (Cli EmptyString EmptyString EmptyString) ;;
         if String.eqb (action c) EmptyString
         then raise (Exn OtherError "Action must be defined")
         else if negb (existsb (String.eqb (action c)) (map Actions_value Actions_members))
         then raise (Exn OtherError
                       ("Action " +:+ action c
                        +:+ " not supported, supported actions are: "
                        +:+ repr_str_list (map Actions_str Actions_members)))
         else if String.eqb (environment c) EmptyString
         then raise (Exn OtherError "Environment must be defined")
         else if String.eqb (template c) EmptyString
         then raise (Exn OtherError "Template must be defined")
         else
           init <- init_variables (environment c) (template c) ;;
           (if String.eqb (action c) (Actions_value DEPLOY)
            then filled_json <- fill_json init ;;
                 deploy_stack init filled_json
            else ret tt) ;;;
           (if String.eqb (action c) (Actions_value FILL)
            then filled_json <- fill_json init ;;
                 save_to_file (stackName init) filled_json "json"
            else ret tt) ;;;
           ret tt)
        (fun e =>
           print ("An error has occurred: " +:+ exn_str e) ;;;
           emit PrintTraceback ;;;
           sys_exit 2)
  end.

End Script.

(** "The file at [path] holds the value set [d]": it exists and
    [yaml.safe_load] reads it as the dict [d]. *)
Definition holds_values (X : externals) (st : state) (path : string) (d : values)
  : Prop :=
  exists text,
    fs st !! path = Some text /\ yaml_safe_load X text = inr (PyDict d) /\ PyDict.wf d.

(** Letters and digits of ASCII. *)
Definition is_alnum (c : ascii) : bool :=
  let n := nat_of_ascii c in
  ((48 <=? n)%nat && (n <=? 57)%nat) || ((65 <=? n)%nat && (n <=? 90)%nat)
  || ((97 <=? n)%nat && (n <=? 122)%nat).

(** How many requests of a kind a trace holds. *)
Definition count_requests (p : request -> bool) (tr : trace) : nat :=
  length (filter (fun r => p r = true) (remote_requests tr)).

(** [emits P m]: whatever happens, [m] only emits events that satisfy [P]. *)
Definition emits {A} (P : event -> Prop) (m : M A) : Prop :=
  forall st o st' tr, m st = (o, st', tr) -> Forall P tr.

(** The two lines [deploy_stack] prints around the prober, and the path it
    takes after it. *)
Definition checking (sn : string) : event :=
  Printed ("Checking if the " +:+ sn +:+ " stack exists.").

Definition banner (found : bool) (sn : string) : event :=
  if found then Printed ("Creating change set for stack: " +:+ sn)
  else Printed ("Stack " +:+ sn +:+ " does not exists, creating it...").

Definition chosen_path (X : externals) (found : bool) (init : init_dict)
  (parameters : pyvalue) : M unit :=
  if found then create_change_set X (stackName init) (stackBody init) parameters
  else create_stack X (stackName init) (stackBody init) parameters.

(** The variables of [main] before the option loop, and after it when no
    help flag stopped it. *)
Definition cli0 : cli := Cli EmptyString EmptyString EmptyString.

Definition given (opts : list (string * string)) : cli := fold_left assign opts cli0.

Definition has_help (opts : list (string * string)) : bool :=
  existsb is_help (map fst opts).

(** What [check_file] prints for a path that is not a file. *)
Definition not_a_file (file : string) : event :=
  Printed ("An error has occurred checking " +:+ file +:+ ": File " +:+ file
         +:+ " does not exists!").

(** The message of the exception that the argument checks of [main] raise,
    if any. *)
Definition argument_error (c : cli) : option string :=
  if String.eqb (action c) EmptyString
  then Some "Action must be defined"
  else if negb (existsb (String.eqb (action c)) (map Actions_value Actions_members))
  then Some ("Action " +:+ action c +:+ " not supported, supported actions are: "
             +:+ repr_str_list (map Actions_str Actions_members))
  else if String.eqb (environment c) EmptyString
  then Some "Environment must be defined"
  else if String.eqb (template c) EmptyString
  then Some "Template must be defined"
  else None.

(** The [except] clause of [main]. *)
Definition main_handler (e : exn) : M unit :=
  print ("An error has occurred: " +:+ exn_str e) ;;;
  emit PrintTraceback ;;;
  sys_exit 2.

(** What [main] prints when its own [except] clause runs. *)
Definition main_failure (msg : string) : trace :=
  [Printed ("An error has occurred: " +:+ msg); PrintTraceback].

(** [main] from [init_variables] on, once the arguments are accepted. *)
Definition dispatch (X : externals) (c : cli) : M unit :=
  try_except
    (init <- init_variables (environment c) (template c) ;;
     (if String.eqb (action c) (Actions_value DEPLOY)
      then filled_json <- fill_json X init ;;
           deploy_stack X init filled_json
      else ret tt) ;;;
     (if String.eqb (action c) (Actions_value FILL)
      then filled_json <- fill_json X init ;;
           save_to_file X (stackName init) filled_json "json"
      else ret tt) ;;;
     ret tt)
    main_handler.



(** [frames touched m]: [m] leaves every path outside [touched] as it was. *)
Definition frames (touched : string -> Prop) {A} (m : M A) : Prop :=
  forall st p, ~ touched p -> fs (m st).1.2 !! p = fs st !! p.


(** The capability acknowledgement sent with both kinds of request. *)
Definition CAPABILITIES : list string := ["CAPABILITY_NAMED_IAM"].

(** ** A concrete run

    One environment ([prod]), one template ([templates/vpc.yaml]) and
    libraries that answer as the real ones do on these files. *)

Module Demo.

Definition dq : string := String "034"%char EmptyString.
Definition nl : string := String "010"%char EmptyString.

Definition common_text : string := "{Env: shared, Owner: platform}".
Definition prod_text : string := "{Env: prod, Cidr: 10.0.0.0/16}".
Definition body_text : string := "Resources: {}".
Definition parameter_text : string :=
  "[{'ParameterKey': 'Env', 'ParameterValue': '{{ Env }}'}]".

Definition common : values := [("Env", PyStr "shared"); ("Owner", PyStr "platform")].
Definition custom : values := [("Env", PyStr "prod"); ("Cidr", PyStr "10.0.0.0/16")].

Definition files : gmap string string :=
  list_to_map
    [("cf_vars/common.yml", common_text);
     ("cf_vars/prod.yml", prod_text);
     ("templates/vpc.yaml", body_text);
     ("templates/vpc.json", parameter_text)].

Definition st : state := State files 0.

Definition rendered_for (env : string) : string :=
  "[{'ParameterKey': 'Env', 'ParameterValue': '" +:+ env +:+ "'}]".

Definition parameters_for (env : string) : pyvalue :=
  PyList [PyDict [("ParameterKey", PyStr "Env"); ("ParameterValue", PyStr env)]].

(** The command lines of these runs: [-e E -t T -a A], [-h], [--help]. *)
Definition getopt (args : list string)
  : exn + (list (string * string) * list string) :=
  match args with
  | [e; env; t; tpl; a; act] =>
      if String.eqb e "-e" && String.eqb t "-t" && String.eqb a "-a"
      then inr ([("-e", env); ("-t", tpl); ("-a", act)], [])
      else inl (Exn OtherError "option not recognized")
  | [h] =>
      if String.eqb h "-h" then inr ([("-h", EmptyString)], [])
      else if String.eqb h "--help" then inr ([("--help", EmptyString)], [])
      else inl (Exn OtherError "option not recognized")
  | _ => inl (Exn OtherError "option not recognized")
  end.

(** The two flow mappings above, as PyYAML loads them. *)
Definition yaml_safe_load (text : string) : exn + pyvalue :=
  if String.eqb text common_text then inr (PyDict common)
  else if String.eqb text prod_text then inr (PyDict custom)
  else inl (Exn OtherError "could not parse the document").

(** [parameter_text] has one placeholder; any other text of these runs has
    none and renders to itself. *)
Definition jinja2_render (text : string) (vals : pyvalue) : exn + string :=
  if String.eqb text parameter_text
  then match vals with
       | PyDict d =>
           match PyDict.get "Env" d with
           | Some (PyStr env) => inr (rendered_for env)
           | _ => inl (Exn OtherError "'Env' is undefined")
           end
       | _ => inl (Exn OtherError "render() argument must be a mapping")
       end
  else inr text.

(** An expression with a call in it. *)
Definition code_text : string := "[__import__('os').system('id')]".

(** The rendered parameter lists are literals; [code_text] runs the
    command and has its status, 0, as the one item of the list. *)
Definition py_eval (text : string) : list string * outcome pyvalue :=
  if String.eqb text (rendered_for "shared") then ([], Ret (parameters_for "shared"))
  else if String.eqb text (rendered_for "prod") then ([], Ret (parameters_for "prod"))
  else if String.eqb text code_text
  then (["os.system('id')"], Ret (PyList [PyInt 0]))
  else ([], Raise (Exn OtherError "invalid syntax")).

(** None of these texts calls the stack service. *)
Definition py_eval_requests (text : string) : list request := [].

(** [json.dumps(parameters_for env, sort_keys=True, indent=4)] *)
Definition dumped_for (env : string) : string :=
  "[" +:+ nl
  +:+ "    {" +:+ nl
  +:+ "        " +:+ dq +:+ "ParameterKey" +:+ dq +:+ ": " +:+ dq +:+ "Env" +:+ dq
  +:+ "," +:+ nl
  +:+ "        " +:+ dq +:+ "ParameterValue" +:+ dq +:+ ": " +:+ dq +:+ env +:+ dq
  +:+ nl
  +:+ "    }" +:+ nl
  +:+ "]".

Definition json_dumps (sort_keys : bool) (indent : option nat) (v : pyvalue)
  : exn + string :=
  match sort_keys, indent, v with
  | true, Some 4,
    PyList [PyDict [("ParameterKey", PyStr "Env"); ("ParameterValue", PyStr env)]] =>
      inr (dumped_for env)
  | _, _, _ => inl (Exn OtherError "Object is not JSON serializable")
  end.

(** Every call of the service succeeds. *)
Definition X : externals :=
  Externals getopt yaml_safe_load jinja2_render py_eval py_eval_requests json_dumps
    None (* boto3.client succeeds *)
    (fun _ => None)
    (fun i => 7 * i + 3)
    (fun _ => None).

(** The describe call is throttled: a [ClientError] that is not a
    not-found answer. *)
Definition throttled : exn :=
  Exn ClientError
    "An error occurred (Throttling) when calling the DescribeStacks operation: Rate exceeded".

Definition X_throttled : externals :=
  Externals getopt yaml_safe_load jinja2_render py_eval py_eval_requests json_dumps
    None (* boto3.client succeeds *)
    (fun r => match r with DescribeStacks _ => Some throttled | _ => None end)
    (fun i => 7 * i + 3)
    (fun _ => None).

(** No credentials are configured: the describe call raises
    [NoCredentialsError], which is not a [ClientError]. *)
Definition no_credentials : exn := Exn OtherError "Unable to locate credentials".

Definition X_no_credentials : externals :=
  Externals getopt yaml_safe_load jinja2_render py_eval py_eval_requests json_dumps
    None (* boto3.client succeeds *)
    (fun _ => Some no_credentials)
    (fun i => 7 * i + 3)
    (fun _ => None).

Definition init : init_dict :=
  {| valuesFile := "cf_vars/prod.yml";
     templateFileName := "vpc.yaml";
     jsonFile := "templates/vpc.json";
     stackName := "ct-prod-base-vpc-stack";
     stackBody := body_text |}.

(** The parameter template is [code_text]. *)
Definition st_code : state :=
  State (<["templates/vpc.json" := code_text]> files) 0.

(** A template in a directory whose name holds the file name. *)
Definition st_nested : state :=
  State
    (list_to_map
       [("cf_vars/prod.yml", prod_text);
        ("vpc.yaml.d/vpc.yaml", body_text);
        ("vpc.yaml.d/vpc.json", parameter_text)])
    0.

Definition argv (act : string) : list string :=
  ["compile_and_execute_template.py"; "-e"; "prod"; "-t"; "templates/vpc.yaml"; "-a"; act].

End Demo.

(** ** More concrete runs *)

Module Demo2.

(** The shared defaults file is not there. *)
Definition st_no_common : state :=
  State
    (list_to_map
       [("cf_vars/prod.yml", Demo.prod_text);
        ("templates/vpc.yaml", Demo.body_text);
        ("templates/vpc.json", Demo.parameter_text)])
    0.

(** The environment [common]: its values file is the shared file. *)
Definition init_common : init_dict :=
  {| valuesFile := "cf_vars/common.yml";
     templateFileName := "vpc.yaml";
     jsonFile := "templates/vpc.json";
     stackName := "ct-common-base-vpc-stack";
     stackBody := Demo.body_text |}.

(** How deep lists and mappings are nested in a value. *)
Fixpoint depth (v : pyvalue) : nat :=
  match v with
  | PyList items => S (foldr (fun x acc => Nat.max (depth x) acc) 0 items)
  | PyDict d => S (foldr (fun kv acc => Nat.max (depth (snd kv)) acc) 0 d)
  | _ => 0
  end.

(** A list in a list in a list, two thousand times: more levels than the
    serialiser can follow within the recursion limit of the interpreter. *)
Definition deep : pyvalue := Nat.iter 2000 (fun v => PyList [v]) (PyList []).

Definition json_dumps (sort_keys : bool) (indent : option nat) (v : pyvalue)
  : exn + string :=
  if (1500 <? depth v)%nat
  then inl (Exn OtherError "maximum recursion depth exceeded")
  else Demo.json_dumps sort_keys indent v.

Definition X_deep : externals :=
  Externals Demo.getopt Demo.yaml_safe_load Demo.jinja2_render Demo.py_eval
    Demo.py_eval_requests json_dumps
    None
    (fun _ => None)
    (fun i => 7 * i + 3)
    (fun _ => None).








(** The template [vpc.yaml.d/vpc.yaml] without a parameter template next to
    it; a file [.d/vpc.json] happens to exist. *)
Definition st_stray : state :=
  State
    (list_to_map
       [("cf_vars/common.yml", Demo.common_text);
        ("cf_vars/prod.yml", Demo.prod_text);
        ("vpc.yaml.d/vpc.yaml", Demo.body_text);
        (".d/vpc.json", Demo.parameter_text)])
    0.

Definition argv_stray : list string :=
  ["compile_and_execute_template.py"; "-e"; "prod"; "-t"; "vpc.yaml.d/vpc.yaml";
   "-a"; "deploy"].

End Demo2.

(** * Properties *)

(** ** Strings *)

Module PyStrFacts.

Lemma str_app_cons c s t : String c s +:+ t = String c (s +:+ t).
Proof. reflexivity. Qed.

Lemma str_app_nil_r s : s +:+ EmptyString = s.
Proof. induction s as [|c s IH]; [done |]. by rewrite str_app_cons, IH. Qed.

Lemma str_app_assoc s t u : (s +:+ t) +:+ u = s +:+ (t +:+ u).
Proof. induction s as [|c s IH]; [done |]. by rewrite !str_app_cons, IH. Qed.

Lemma prefix_nil_l s : PyStr.prefix EmptyString s = true.
Proof. by destruct s. Qed.

Lemma prefix_app_r p t : PyStr.prefix p (p +:+ t) = true.
Proof.
  induction p as [|c p IH]; [apply prefix_nil_l |].
  rewrite str_app_cons. simpl. by rewrite Ascii.eqb_refl.
Qed.

Lemma prefix_refl p : PyStr.prefix p p = true.
Proof. rewrite <- (str_app_nil_r p) at 2. apply prefix_app_r. Qed.

(** A match that starts in [u] lies in [u] or runs over its end. *)
Lemma prefix_app_cases p u t :
  PyStr.prefix p (u +:+ t) = true ->
  PyStr.prefix p u = true \/ PyStr.prefix u p = true.
Proof.
  revert p. induction u as [|c u IH]; intros p Hp.
  - right. apply prefix_nil_l.
  - destruct p as [|a p]; [by left |].
    rewrite str_app_cons in Hp. simpl in Hp. simpl.
    destruct (Ascii.eqb_spec a c) as [->|]; [| done].
    rewrite Ascii.eqb_refl. by apply IH.
Qed.

Lemma mem_prefix c u p :
  PyStr.prefix u p = true -> PyStr.mem c u = true -> PyStr.mem c p = true.
Proof.
  revert p. induction u as [|a u IH]; intros p Hp Hc; [done |].
  destruct p as [|b p]; [done |]. simpl in *.
  destruct (Ascii.eqb_spec a b) as [->|]; [| done].
  destruct (Ascii.eqb b c); [done | by apply IH].
Qed.

Lemma mem_ends_with c s : PyStr.ends_with c s = true -> PyStr.mem c s = true.
Proof.
  induction s as [|a s IH]; [done |]. simpl.
  destruct s as [|b s].
  - by intros ->.
  - intros H. destruct (Ascii.eqb a c); [done | by apply IH].
Qed.

Lemma ends_with_app_sep c d :
  PyStr.ends_with c (d +:+ String c EmptyString) = true.
Proof.
  induction d as [|a d IH]; [simpl; apply Ascii.eqb_refl |].
  rewrite str_app_cons. simpl.
  destruct (d +:+ String c EmptyString) eqn:E; [by destruct d | done].
Qed.

Lemma ends_with_tail c a s :
  PyStr.ends_with c (String a s) = true -> s <> EmptyString ->
  PyStr.ends_with c s = true.
Proof. by destruct s. Qed.

Lemma occurs_prefix p s : PyStr.occurs p s = false -> PyStr.prefix p s = false.
Proof. destruct s; simpl; by intros [? _]%orb_false_iff. Qed.

Lemma occurs_tail p c s : PyStr.occurs p (String c s) = false -> PyStr.occurs p s = false.
Proof. simpl. by intros [_ ?]%orb_false_iff. Qed.

(** *** [replace] *)

Lemma replace_go_skip old new s :
  PyStr.replace_go old new (String.length s) s = EmptyString.
Proof. induction s as [|c s IH]; [done | exact IH]. Qed.

(** Nothing to replace. *)
Lemma replace_go_absent old new s :
  PyStr.occurs old s = false -> PyStr.replace_go old new 0 s = s.
Proof.
  induction s as [|c s IH]; [done |]. intros Hocc.
  cbn [PyStr.replace_go]. rewrite (occurs_prefix _ _ Hocc).
  by rewrite IH by (by eapply occurs_tail).
Qed.

(** The only match is the one at the end. *)
Lemma replace_go_at_end old new s :
  old <> EmptyString ->
  PyStr.occurs old s = false ->
  (forall u v, s = u +:+ v -> v <> EmptyString ->
               PyStr.prefix old (v +:+ old) = true -> PyStr.prefix old v = true) ->
  PyStr.replace_go old new 0 (s +:+ old) = s +:+ new.
Proof.
  intros Hold. induction s as [|c s IH]; intros Hocc Hover.
  - destruct old as [|a old']; [done |].
    change (EmptyString +:+ String a old') with (String a old').
    cbn [PyStr.replace_go]. rewrite prefix_refl.
    cbn [String.length]. rewrite Nat.sub_1_r. cbn [Nat.pred].
    by rewrite replace_go_skip, str_app_nil_r.
  - rewrite !str_app_cons. cbn [PyStr.replace_go].
    destruct (PyStr.prefix old (String c (s +:+ old))) eqn:Hp.
    + apply (Hover EmptyString (String c s)) in Hp; [| done | done].
      by rewrite (occurs_prefix _ _ Hocc) in Hp.
    + rewrite IH; [done | by eapply occurs_tail |].
      intros u v -> Hv. by apply (Hover (String c u) v).
Qed.

(** A pattern of which no proper tail starts the pattern again, such as the
    two extensions, cannot run over the end of a text into a copy of itself. *)
Lemma yaml_no_overlap v :
  v <> EmptyString ->
  PyStr.prefix ".yaml" (v +:+ ".yaml") = true -> PyStr.prefix ".yaml" v = true.
Proof.
  intros Hv Hp. destruct (prefix_app_cases _ _ _ Hp) as [|Hvp]; [done |].
  revert Hp. destruct v as [|c v]; [done |]. clear Hv.
  simpl in Hvp. destruct (Ascii.eqb_spec c ".") as [->|]; [| done].
  repeat (destruct v as [|? v]; [by vm_compute |];
          simpl in Hvp;
          first
            [ discriminate Hvp
            | match type of Hvp with
              | (if Ascii.eqb ?a ?b then _ else _) = true =>
                  destruct (Ascii.eqb_spec a b) as [->|]; [| done]
              end ]).
Qed.

Lemma yml_no_overlap v :
  v <> EmptyString ->
  PyStr.prefix ".yml" (v +:+ ".yml") = true -> PyStr.prefix ".yml" v = true.
Proof.
  intros Hv Hp. destruct (prefix_app_cases _ _ _ Hp) as [|Hvp]; [done |].
  revert Hp. destruct v as [|c v]; [done |]. clear Hv.
  simpl in Hvp. destruct (Ascii.eqb_spec c ".") as [->|]; [| done].
  repeat (destruct v as [|? v]; [by vm_compute |];
          simpl in Hvp;
          first
            [ discriminate Hvp
            | match type of Hvp with
              | (if Ascii.eqb ?a ?b then _ else _) = true =>
                  destruct (Ascii.eqb_spec a b) as [->|]; [| done]
              end ]).
Qed.

Lemma yaml_yml_no_overlap v :
  PyStr.prefix ".yaml" (v +:+ ".yml") = true -> PyStr.prefix ".yaml" v = true.
Proof.
  intros Hp. destruct (prefix_app_cases _ _ _ Hp) as [|Hvp]; [done |].
  revert Hp. destruct v as [|c v]; [by vm_compute |].
  simpl in Hvp. destruct (Ascii.eqb_spec c ".") as [->|]; [| done].
  repeat (destruct v as [|? v]; [by vm_compute |];
          simpl in Hvp;
          first
            [ discriminate Hvp
            | match type of Hvp with
              | (if Ascii.eqb ?a ?b then _ else _) = true =>
                  destruct (Ascii.eqb_spec a b) as [->|]; [| done]
              end ]).
Qed.

Lemma replace_nonempty old new s :
  old <> EmptyString -> PyStr.replace old new s = PyStr.replace_go old new 0 s.
Proof. by destruct old. Qed.

Lemma occurs_app_absent p s t :
  PyStr.occurs p s = false ->
  PyStr.occurs p t = false ->
  (forall u v, s = u +:+ v -> PyStr.prefix p (v +:+ t) = true -> PyStr.prefix p v = true) ->
  PyStr.occurs p (s +:+ t) = false.
Proof.
  induction s as [|c s IH]; intros Hs Ht Hover; [done |].
  rewrite str_app_cons. cbn [PyStr.occurs]. apply orb_false_iff. split.
  - destruct (PyStr.prefix p (String c (s +:+ t))) eqn:Hp; [| done].
    apply (Hover EmptyString (String c s)) in Hp; [| done].
    by rewrite (occurs_prefix _ _ Hs) in Hp.
  - apply IH; [by eapply occurs_tail | done |].
    intros u v ->. by apply (Hover (String c u) v).
Qed.

Lemma mem_app c s t : PyStr.mem c (s +:+ t) = PyStr.mem c s || PyStr.mem c t.
Proof.
  induction s as [|a s IH]; [done |]. rewrite str_app_cons. simpl.
  by destruct (Ascii.eqb a c).
Qed.

Lemma str_app_eq_nil s t : s +:+ t = EmptyString -> t = EmptyString.
Proof. by destruct s. Qed.

Lemma ends_with_suffix c u v :
  PyStr.ends_with c (u +:+ v) = true -> v <> EmptyString ->
  PyStr.ends_with c v = true.
Proof.
  induction u as [|a u IH]; intros He Hv; [done |].
  rewrite str_app_cons in He. apply IH; [| done].
  apply (ends_with_tail _ a); [done |].
  intros Hnil. by apply str_app_eq_nil in Hnil.
Qed.

(** *** [split] *)

Lemma split_nonempty sep s : PyStr.split sep s <> [].
Proof.
  destruct s as [|c s]; [done |]. simpl.
  destruct (Ascii.eqb c sep); [done |]. by destruct (PyStr.split sep s).
Qed.

Lemma split_no_sep sep s : PyStr.mem sep s = false -> PyStr.split sep s = [s].
Proof.
  induction s as [|c s IH]; [done |]. simpl.
  destruct (Ascii.eqb c sep); [done |]. intros Hs. by rewrite IH.
Qed.

Lemma split_app_sep sep d f :
  PyStr.split sep (d +:+ String sep f) = PyStr.split sep d ++ PyStr.split sep f.
Proof.
  induction d as [|c d IH].
  - change (EmptyString +:+ String sep f) with (String sep f).
    simpl. by rewrite Ascii.eqb_refl.
  - rewrite str_app_cons. simpl. destruct (Ascii.eqb c sep).
    + by rewrite IH.
    + rewrite IH. pose proof (split_nonempty sep d).
      by destruct (PyStr.split sep d).
Qed.

Lemma last_item_app l1 l2 :
  l2 <> [] -> PyStr.last_item (l1 ++ l2) = PyStr.last_item l2.
Proof.
  intros Hl2. unfold PyStr.last_item. induction l1 as [|x l1 IH]; [done |].
  simpl. destruct (l1 ++ l2) eqn:E; [| done].
  apply app_eq_nil in E as [_ ->]. done.
Qed.

End PyStrFacts.

(** ** Dicts *)

Module PyDictFacts.
Section Facts.
Context {K V : Type} `{EqDecision K}.
Implicit Types (d other : PyDict.dict K V) (k : K) (v : V).

Lemma get_None_keys k d : PyDict.get k d = None <-> k ∉ PyDict.keys d.
Proof.
  induction d as [|[k' v'] d IH]; simpl.
  - split; [intros _; apply not_elem_of_nil | done].
  - rewrite not_elem_of_cons. destruct (decide (k = k')) as [->|Hne].
    + split; [done | intros [? _]; done].
    + rewrite IH. tauto.
Qed.

Lemma get_Some_keys k d : is_Some (PyDict.get k d) <-> k ∈ PyDict.keys d.
Proof.
  rewrite <- not_eq_None_Some, get_None_keys.
  split; [apply dec_stable | auto].
Qed.

Lemma get_setitem_eq k v d : PyDict.get k (PyDict.setitem k v d) = Some v.
Proof.
  induction d as [|[k' v'] d IH]; simpl.
  - by rewrite decide_True.
  - destruct (decide (k = k')) as [->|Hne]; simpl.
    + by rewrite decide_True.
    + by rewrite decide_False.
Qed.

Lemma get_setitem_ne k k' v d :
  k ≠ k' -> PyDict.get k' (PyDict.setitem k v d) = PyDict.get k' d.
Proof.
  intros Hne. induction d as [|[k1 v1] d IH]; simpl.
  - rewrite decide_False; [done | congruence].
  - destruct (decide (k = k1)) as [->|Hne1]; simpl.
    + rewrite !decide_False; [done | congruence | congruence].
    + by rewrite IH.
Qed.

Lemma keys_setitem k v d :
  PyDict.keys (PyDict.setitem k v d)
  = if decide (k ∈ PyDict.keys d) then PyDict.keys d else (PyDict.keys d ++ [k]).
Proof.
  induction d as [|[k1 v1] d IH].
  - destruct (decide (k ∈ PyDict.keys [])) as [Hin|_]; [|done].
    by apply elem_of_nil in Hin.
  - cbn [PyDict.setitem].
    destruct (decide (k ∈ PyDict.keys ((k1, v1) :: d))) as [Hin'|Hin'];
      destruct (decide (k = k1)) as [->|Hne]; try reflexivity.
    + change (PyDict.keys ((k1, v1) :: PyDict.setitem k v d))
        with (k1 :: PyDict.keys (PyDict.setitem k v d)).
      rewrite IH. apply elem_of_cons in Hin' as [?|Hin']; [done |].
      by rewrite decide_True.
    + exfalso. apply Hin', list_elem_of_here.
    + change (PyDict.keys ((k1, v1) :: PyDict.setitem k v d))
        with (k1 :: PyDict.keys (PyDict.setitem k v d)).
      rewrite IH. rewrite decide_False; [done |].
      intros Hin. apply Hin'. by apply list_elem_of_further.
Qed.

Lemma elem_keys_setitem k k' v d :
  k' ∈ PyDict.keys (PyDict.setitem k v d) <-> k' = k \/ k' ∈ PyDict.keys d.
Proof.
  rewrite keys_setitem. case_decide as Hin.
  - split; [auto | intros [->|?]; done].
  - rewrite elem_of_app, list_elem_of_singleton. tauto.
Qed.

Lemma wf_setitem k v d : PyDict.wf d -> PyDict.wf (PyDict.setitem k v d).
Proof.
  unfold PyDict.wf. intros Hwf. rewrite keys_setitem. case_decide as Hin; [done |].
  apply NoDup_app. split_and!; [done | | apply NoDup_singleton].
  intros x Hx Hx'. apply list_elem_of_singleton in Hx'. by subst.
Qed.

Lemma update_cons d k v other :
  PyDict.update d ((k, v) :: other) = PyDict.update (PyDict.setitem k v d) other.
Proof. reflexivity. Qed.

Lemma get_update_absent k d other :
  k ∉ PyDict.keys other -> PyDict.get k (PyDict.update d other) = PyDict.get k d.
Proof.
  revert d. induction other as [|[k1 v1] other IH]; intros d Hk; [done |].
  simpl in Hk. apply not_elem_of_cons in Hk as [Hne Hk].
  rewrite update_cons, IH by done. apply get_setitem_ne. congruence.
Qed.

Lemma get_update_present k v d other :
  PyDict.wf other -> PyDict.get k other = Some v ->
  PyDict.get k (PyDict.update d other) = Some v.
Proof.
  revert d. induction other as [|[k1 v1] other IH]; intros d Hwf Hget; [done |].
  unfold PyDict.wf in Hwf. simpl in Hwf, Hget.
  apply NoDup_cons in Hwf as [Hk1 Hwf].
  rewrite update_cons. destruct (decide (k = k1)) as [->|Hne].
  - injection Hget as ->. rewrite get_update_absent by done. apply get_setitem_eq.
  - by apply IH.
Qed.

Lemma elem_keys_update k d other :
  k ∈ PyDict.keys (PyDict.update d other)
  <-> k ∈ PyDict.keys d \/ k ∈ PyDict.keys other.
Proof.
  revert d. induction other as [|[k1 v1] other IH]; intros d.
  - simpl. split; [auto | intros [?|Hn]; [done | by apply elem_of_nil in Hn]].
  - rewrite update_cons, IH, elem_keys_setitem. simpl.
    rewrite elem_of_cons. tauto.
Qed.

Lemma wf_update d other : PyDict.wf d -> PyDict.wf (PyDict.update d other).
Proof.
  revert d. induction other as [|[k1 v1] other IH]; intros d Hwf; [done |].
  rewrite update_cons. by apply IH, wf_setitem.
Qed.

End Facts.
End PyDictFacts.

(** ** Running the monad *)

Section Run.
Context {A B : Type}.
Implicit Types (m : M A) (k : A -> M B) (st : state).

Lemma bind_Ret m k st a st1 t1 :
  m st = (Ret a, st1, t1) ->
  bind m k st = (let '(o, st2, t2) := k a st1 in (o, st2, (t1 ++ t2))).
Proof. unfold bind. intros ->. reflexivity. Qed.


Lemma bind_Exit m k st c st1 t1 :
  m st = (Exit c, st1, t1) -> bind m k st = (Exit c, st1, t1).
Proof. unfold bind. intros ->. reflexivity. Qed.

Lemma try_except_Ret m (h : exn -> M A) st a st1 t1 :
  m st = (Ret a, st1, t1) -> try_except m h st = (Ret a, st1, t1).
Proof. unfold try_except. intros ->. reflexivity. Qed.

Lemma try_except_Exit m (h : exn -> M A) st c st1 t1 :
  m st = (Exit c, st1, t1) -> try_except m h st = (Exit c, st1, t1).
Proof. unfold try_except. intros ->. reflexivity. Qed.

Lemma try_except_Raise m (h : exn -> M A) st e st1 t1 :
  m st = (Raise e, st1, t1) ->
  try_except m h st = (let '(o, st2, t2) := h e st1 in (o, st2, (t1 ++ t2))).
Proof. unfold try_except. intros ->. reflexivity. Qed.
End Run.

Section Emits.
Context (P : event -> Prop).

Lemma emits_ret {A} (a : A) : emits P (ret a).
Proof. intros st o st' tr [= <- <- <-]. constructor. Qed.

Lemma emits_raise {A} e : emits P (@raise A e).
Proof. intros st o st' tr [= <- <- <-]. constructor. Qed.

Lemma emits_sys_exit {A} c : emits P (@sys_exit A c).
Proof. intros st o st' tr [= <- <- <-]. constructor. Qed.

Lemma emits_lift {A} (r : exn + A) : emits P (lift r).
Proof. destruct r; [apply emits_raise | apply emits_ret]. Qed.

Lemma emits_emit ev : P ev -> emits P (emit ev).
Proof. intros Hev st o st' tr [= <- <- <-]. by repeat constructor. Qed.

Lemma emits_bind {A B} (m : M A) (k : A -> M B) :
  emits P m -> (forall a, emits P (k a)) -> emits P (bind m k).
Proof.
  intros Hm Hk st o st' tr. unfold bind.
  destruct (m st) as [[[a|e|c] st1] t1] eqn:Em.
  - destruct (k a st1) as [[o2 st2] t2] eqn:Ek. intros [= <- <- <-].
    apply Forall_app. split; [eapply Hm | eapply Hk]; eassumption.
  - intros [= <- <- <-]. eapply Hm; eassumption.
  - intros [= <- <- <-]. eapply Hm; eassumption.
Qed.

Lemma emits_try_except {A} (m : M A) (h : exn -> M A) :
  emits P m -> (forall e, emits P (h e)) -> emits P (try_except m h).
Proof.
  intros Hm Hh st o st' tr. unfold try_except.
  destruct (m st) as [[[a|e|c] st1] t1] eqn:Em.
  - intros [= <- <- <-]. eapply Hm; eassumption.
  - destruct (h e st1) as [[o2 st2] t2] eqn:Eh. intros [= <- <- <-].
    apply Forall_app. split; [eapply Hm | eapply Hh]; eassumption.
  - intros [= <- <- <-]. eapply Hm; eassumption.
Qed.

Lemma emits_try_except_ClientError {A} (m h : M A) :
  emits P m -> emits P h -> emits P (try_except_ClientError m h).
Proof.
  intros Hm Hh st o st' tr. unfold try_except_ClientError.
  destruct (m st) as [[[a|e|c] st1] t1] eqn:Em.
  - intros [= <- <- <-]. eapply Hm; eassumption.
  - destruct (is_client_error e).
    + destruct (h st1) as [[o2 st2] t2] eqn:Eh. intros [= <- <- <-].
      apply Forall_app. split; [eapply Hm | eapply Hh]; eassumption.
    + intros [= <- <- <-]. eapply Hm; eassumption.
  - intros [= <- <- <-]. eapply Hm; eassumption.
Qed.
End Emits.

Lemma remote_requests_app t1 t2 :
  remote_requests (t1 ++ t2) = remote_requests t1 ++ remote_requests t2.
Proof. apply omap_app. Qed.

Lemma code_effects_app t1 t2 :
  code_effects (t1 ++ t2) = code_effects t1 ++ code_effects t2.
Proof. apply omap_app. Qed.



Lemma code_effects_Remote rs : code_effects (map Remote rs) = [].
Proof. induction rs as [|r rs IH]; [done | exact IH]. Qed.

Lemma Forall_not_remote tr :
  Forall (fun ev => is_remote ev = false) tr -> remote_requests tr = [].
Proof.
  induction 1 as [|ev tr Hev _ IH]; [done |].
  destruct ev; try discriminate; exact IH.
Qed.

Lemma Forall_not_code tr :
  Forall (fun ev => forall c, ev <> Code c) tr -> code_effects tr = [].
Proof.
  induction 1 as [|ev tr Hev _ IH]; [done |].
  destruct ev; try exact IH. by destruct (Hev effect).
Qed.

(** ** Configuration Merger *)

Section Merger.
Context (X : externals).

Lemma merge_vars_file_run init st common custom :
  holds_values X st COMMON_FILE_PATH common ->
  holds_values X st (valuesFile init) custom ->
  merge_vars_file X init st = (Ret (PyDict (PyDict.update custom common)), st, []).
Proof.
  intros (t1 & Hf1 & Hy1 & _) (t2 & Hf2 & Hy2 & _).
  unfold merge_vars_file, try_except, bind, open_read, lift.
  rewrite Hf1, Hy1. simpl. rewrite Hf2, Hy2. reflexivity.
Qed.

(** C3. Where the shared defaults and the environment's values both define
    a key, the merged value set that [merge_vars_file] returns maps the
    key to the shared-defaults value. *)
Theorem merge_shared_defaults_win init st common custom k v v' :
  holds_values X st COMMON_FILE_PATH common ->
  holds_values X st (valuesFile init) custom ->
  PyDict.get k common = Some v ->
  PyDict.get k custom = Some v' ->
  exists merged,
    merge_vars_file X init st = (Ret (PyDict merged), st, [])
    /\ PyDict.get k merged = Some v.
Proof.
  intros Hcommon Hcustom Hk _. exists (PyDict.update custom common). split.
  - by apply merge_vars_file_run.
  - destruct Hcommon as (? & _ & _ & Hwf).
    by apply PyDictFacts.get_update_present.
Qed.

(** C4. A key of only one source keeps its value in the merged value set,
    the keys of the merged set are those of the two sources together, and
    no key occurs twice. *)
Theorem merge_keys_union_once init st common custom :
  holds_values X st COMMON_FILE_PATH common ->
  holds_values X st (valuesFile init) custom ->
  exists merged,
    merge_vars_file X init st = (Ret (PyDict merged), st, [])
    /\ (forall k, PyDict.get k custom = None ->
                  PyDict.get k merged = PyDict.get k common)
    /\ (forall k, PyDict.get k common = None ->
                  PyDict.get k merged = PyDict.get k custom)
    /\ (forall k, k ∈ PyDict.keys merged
                  <-> k ∈ PyDict.keys common \/ k ∈ PyDict.keys custom)
    /\ NoDup (PyDict.keys merged).
Proof.
  intros Hcommon Hcustom. exists (PyDict.update custom common).
  split; [by apply merge_vars_file_run |].
  destruct Hcommon as (? & _ & _ & Hwf1). destruct Hcustom as (? & _ & _ & Hwf2).
  split_and!.
  - intros k Hk. destruct (PyDict.get k common) as [v|] eqn:Ek.
    + by apply PyDictFacts.get_update_present.
    + rewrite PyDictFacts.get_update_absent; [done |].
      by apply PyDictFacts.get_None_keys.
  - intros k Hk. apply PyDictFacts.get_update_absent.
    by apply PyDictFacts.get_None_keys.
  - intros k. rewrite PyDictFacts.elem_keys_update. tauto.
  - by apply PyDictFacts.wf_update.
Qed.
End Merger.

(** ** The stack service: prober, change plan builder, stack creator *)

Lemma mem_nth c0 chars i :
  i < String.length chars -> PyStr.mem (PyStr.nth i chars c0) chars = true.
Proof.
  revert i. induction chars as [|a chars IH]; intros i Hi; simpl in *; [lia |].
  destruct i as [|i]; simpl.
  - by rewrite Ascii.eqb_refl.
  - destruct (Ascii.eqb a _); [done | apply IH; lia].
Qed.

Lemma default_chars_alnum c : PyStr.mem c default_chars = true -> is_alnum c = true.
Proof.
  unfold default_chars. cbn [PyStr.mem].
  repeat match goal with
    | |- context [Ascii.eqb ?a c] =>
        destruct (Ascii.eqb_spec a c) as [<-|_]; [intros _; reflexivity |]
    end.
  intros [=].
Qed.

Section Service.
Context (X : externals).

Lemma random_choice_run chars st :
  chars <> EmptyString ->
  exists c,
    random_choice X chars st = (Ret c, State (fs st) (S (draws st)), [])
    /\ PyStr.mem c chars = true.
Proof.
  intros Hne. destruct chars as [|c0 chars']; [done |].
  eexists. split; [reflexivity |].
  apply mem_nth, Nat.mod_upper_bound. simpl. lia.
Qed.

Lemma id_generator_run n chars st :
  chars <> EmptyString ->
  exists s,
    id_generator X n chars st = (Ret s, State (fs st) (draws st + n), [])
    /\ String.length s = n
    /\ forall c, PyStr.mem c s = true -> PyStr.mem c chars = true.
Proof.
  intros Hne. revert st. induction n as [|n IH]; intros st.
  - exists EmptyString. simpl. unfold ret. rewrite Nat.add_0_r.
    destruct st; split_and!; [done | done | discriminate].
  - destruct (random_choice_run chars st Hne) as (c1 & Hc1 & Hmem1).
    destruct (IH (State (fs st) (S (draws st)))) as (s & Hs & Hlen & Hmem).
    exists (String c1 s). split_and!.
    + cbn [id_generator]. rewrite (bind_Ret _ _ _ _ _ _ Hc1).
      rewrite (bind_Ret _ _ _ _ _ _ Hs). simpl.
      do 3 f_equal. lia.
    + simpl. by rewrite Hlen.
    + intros c. simpl. destruct (Ascii.eqb_spec c1 c) as [<-|_]; [done | apply Hmem].
Qed.

Lemma get_nth i s d : i < String.length s -> String.get i s = Some (PyStr.nth i s d).
Proof.
  revert i. induction s as [|a s IH]; intros i Hi; simpl in *; [lia |].
  destruct i as [|i]; [done |]. apply IH. lia.
Qed.

(** Character [i] of the generated string is the one that draw number
    [draws st + i] picks. *)
Lemma id_generator_draws n chars st s st1 :
  chars <> EmptyString ->
  id_generator X n chars st = (Ret s, st1, []) ->
  forall i, i < n ->
    String.get i s
    = String.get (random_draw X (draws st + i) mod String.length chars) chars.
Proof.
  intros Hne. revert st s. induction n as [|n IH]; intros st s Hid i Hi; [lia |].
  destruct chars as [|c0 chars'] eqn:Hchars; [done |]. rewrite <- Hchars in *.
  assert (random_choice X chars st
          = (Ret (PyStr.nth (random_draw X (draws st) mod String.length chars) chars c0),
             State (fs st) (S (draws st)), [])) as Hc1.
  { rewrite Hchars. reflexivity. }
  destruct (id_generator_run n chars (State (fs st) (S (draws st)))) as (s' & Hs & _);
    [by rewrite Hchars |].
  cbn [id_generator] in Hid. rewrite (bind_Ret _ _ _ _ _ _ Hc1) in Hid.
  rewrite (bind_Ret _ _ _ _ _ _ Hs) in Hid. simpl in Hid.
  injection Hid as <- <-.
  destruct i as [|i].
  - rewrite Nat.add_0_r. cbn [String.get]. symmetry. apply get_nth.
    apply Nat.mod_upper_bound. rewrite Hchars. simpl. lia.
  - cbn [String.get]. rewrite (IH _ _ Hs i) by lia. cbn [draws].
    by replace (S (draws st) + i) with (draws st + S i) by lia.
Qed.

Lemma stack_exists_found stack_name st :
  boto3_client X = None ->
  remote X (DescribeStacks stack_name) = None ->
  stack_exists X stack_name st
  = (Ret true, st,
     [Remote (DescribeStacks stack_name); Printed (stack_name +:+ " stack found.")]).
Proof.
  intros Hc Hr. unfold stack_exists, try_except_ClientError, bind, client, call.
  rewrite Hc. simpl. rewrite Hr. reflexivity.
Qed.

Lemma stack_exists_error stack_name st e :
  boto3_client X = None ->
  remote X (DescribeStacks stack_name) = Some e ->
  stack_exists X stack_name st
  = if is_client_error e
    then (Ret false, st,
          [Remote (DescribeStacks stack_name);
           Printed (stack_name +:+ " stack not found.")])
    else (Raise e, st, [Remote (DescribeStacks stack_name)]).
Proof.
  intros Hc Hr. unfold stack_exists, try_except_ClientError, bind, client, call.
  rewrite Hc. simpl. rewrite Hr. simpl. by destruct (is_client_error e).
Qed.

Lemma create_change_set_no_client stack_name body parameters st e :
  boto3_client X = Some e ->
  create_change_set X stack_name body parameters st
  = (Exit 2, st,
     [Printed ("An error has occurred during the creation of the change set: "
             +:+ exn_str e)]).
Proof.
  intros Hc. unfold create_change_set, try_except, bind at 1, client.
  rewrite Hc. reflexivity.
Qed.

Lemma create_change_set_run stack_name body parameters st suffix st1 :
  boto3_client X = None ->
  id_generator X 6 default_chars st = (Ret suffix, st1, []) ->
  let name := stack_name +:+ "-" +:+ suffix in
  let req := CreateChangeSet stack_name body parameters name CAPABILITIES in
  let wait := WaitChangeSetCreateComplete name stack_name 10 in
  create_change_set X stack_name body parameters st
  = match remote X req with
    | Some e =>
        (Exit 2, st1,
         [Remote req;
          Printed ("An error has occurred during the creation of the change set: "
                 +:+ exn_str e)])
    | None =>
        match remote X wait with
        | Some e =>
            (Exit 2, st1,
             [Remote req; Remote wait;
              Printed ("An error has occurred during the creation of the change set: "
                     +:+ exn_str e)])
        | None =>
            (Ret tt, st1,
             [Remote req; Remote wait;
              Printed ("Change set " +:+ name +:+ " for stack " +:+ stack_name
                     +:+ " created!")])
        end
    end.
Proof.
  intros Hc Hid name req wait.
  unfold create_change_set, try_except, bind at 1, client. rewrite Hc.
  unfold ret at 1. rewrite (bind_Ret _ _ _ _ _ _ Hid).
  subst name req wait.
  unfold CAPABILITIES, bind, call, print, emit, ret, sys_exit.
  repeat case_match; simplify_eq; reflexivity.
Qed.

Lemma create_stack_no_client stack_name body parameters st e :
  boto3_client X = Some e ->
  create_stack X stack_name body parameters st
  = (Exit 2, st,
     [Printed ("An error has occurred during the creation of the stack: "
             +:+ exn_str e)]).
Proof.
  intros Hc. unfold create_stack, try_except, bind at 1, client.
  rewrite Hc. reflexivity.
Qed.

Lemma create_stack_run stack_name body parameters st :
  boto3_client X = None ->
  let req := CreateStack stack_name body parameters CAPABILITIES in
  let wait := WaitStackCreateComplete stack_name 10 in
  create_stack X stack_name body parameters st
  = match remote X req with
    | Some e =>
        (Exit 2, st,
         [Remote req;
          Printed ("An error has occurred during the creation of the stack: "
                 +:+ exn_str e)])
    | None =>
        match remote X wait with
        | Some e =>
            (Exit 2, st,
             [Remote req; Remote wait;
              Printed ("An error has occurred during the creation of the stack: "
                     +:+ exn_str e)])
        | None =>
            (Ret tt, st,
             [Remote req; Remote wait;
              Printed ("Stack " +:+ stack_name +:+ " created!")])
        end
    end.
Proof.
  intros Hc req wait.
  unfold create_stack, try_except, bind, client, call, print, emit, ret, sys_exit.
  rewrite Hc. subst req wait. unfold CAPABILITIES.
  repeat case_match; simplify_eq; reflexivity.
Qed.

End Service.

Lemma try_except_exit_outcome {A} (m : M A) (msg : exn -> string) st o st' tr :
  try_except m (fun e => print (msg e) ;;; sys_exit 2) st = (o, st', tr) ->
  (exists a, o = Ret a) \/ o = Exit 2 \/ (exists c, m st = (Exit c, st', tr)).
Proof.
  unfold try_except. destruct (m st) as [[[a|e|c] st1] t1] eqn:Em.
  - intros [= <- <- <-]. eauto.
  - unfold bind, print, emit, sys_exit. intros [= <- <- <-]. eauto.
  - intros [= <- <- <-]. eauto.
Qed.

Section Orchestrator.
Context (X : externals).

Lemma stack_exists_requests stack_name st :
  let tr := (stack_exists X stack_name st).2 in
  remote_requests tr = [] \/ remote_requests tr = [DescribeStacks stack_name].
Proof.
  unfold stack_exists, try_except_ClientError, bind, client, call, print, emit,
    ret, raise.
  repeat case_match; simplify_eq; simpl; auto.
Qed.

Lemma stack_exists_true_client stack_name st st1 tr1 :
  stack_exists X stack_name st = (Ret true, st1, tr1) -> boto3_client X = None.
Proof.
  unfold stack_exists, try_except_ClientError, bind, client, call, print, emit,
    ret, raise.
  repeat case_match; simplify_eq; simpl; auto; discriminate.
Qed.

Lemma stack_exists_state stack_name st o st1 tr1 :
  stack_exists X stack_name st = (o, st1, tr1) -> st1 = st.
Proof.
  unfold stack_exists, try_except_ClientError, bind, client, call, print, emit,
    ret, raise.
  repeat case_match; simplify_eq; simpl; congruence.
Qed.

(** The requests of the change plan builder: none when no client can be
    made, else the create request, followed by the wait if it was accepted. *)
Lemma create_change_set_requests stack_name body parameters st :
  exists suffix,
    let name := stack_name +:+ "-" +:+ suffix in
    let req := CreateChangeSet stack_name body parameters name CAPABILITIES in
    let wait := WaitChangeSetCreateComplete name stack_name 10 in
    let tr := (create_change_set X stack_name body parameters st).2 in
    id_generator X 6 default_chars st = (Ret suffix, State (fs st) (draws st + 6), [])
    /\ match boto3_client X with
       | Some _ => remote_requests tr = []
       | None => remote_requests tr = [req] \/ remote_requests tr = [req; wait]
       end.
Proof.
  destruct (id_generator_run X 6 default_chars st) as (suffix & Hid & _); [done |].
  exists suffix. intros name req wait tr. split; [done |].
  destruct (boto3_client X) as [e|] eqn:Hc.
  - subst tr. by rewrite (create_change_set_no_client X _ _ _ _ e).
  - subst tr. rewrite (create_change_set_run X _ _ _ _ _ _ Hc Hid).
    fold name. fold req. fold wait.
    destruct (remote X req); [by left |]. destruct (remote X wait); by right.
Qed.

Lemma create_stack_requests stack_name body parameters st :
  let req := CreateStack stack_name body parameters CAPABILITIES in
  let wait := WaitStackCreateComplete stack_name 10 in
  let tr := (create_stack X stack_name body parameters st).2 in
  match boto3_client X with
  | Some _ => remote_requests tr = []
  | None => remote_requests tr = [req] \/ remote_requests tr = [req; wait]
  end.
Proof.
  intros req wait tr. destruct (boto3_client X) as [e|] eqn:Hc.
  - subst tr. by rewrite (create_stack_no_client X _ _ _ _ e).
  - subst tr. rewrite (create_stack_run X _ _ _ _ Hc).
    fold req. fold wait.
    destruct (remote X req); [by left |]. destruct (remote X wait); by right.
Qed.

Lemma deploy_stack_run init parameters st found st1 tr1 :
  stack_exists X (stackName init) st = (Ret found, st1, tr1) ->
  deploy_stack X init parameters st
  = let '(o, st2, tr2) := chosen_path X found init parameters st1 in
    (o, st2, checking (stackName init) :: tr1 ++ banner found (stackName init) :: tr2).
Proof.
  intros Hex. unfold deploy_stack, chosen_path.
  destruct found.
  - destruct (create_change_set X (stackName init) (stackBody init) parameters st1)
      as [[o st2] tr2] eqn:Hpath.
    destruct (try_except_exit_outcome _ _ _ _ _ _ Hpath) as [[[] ->]|[->|[c Hc]]].
    + unfold try_except, bind at 1, print, emit. unfold bind at 1. rewrite Hex.
      unfold bind, ret. rewrite Hpath. simpl. by rewrite !app_nil_r.
    + unfold try_except, bind at 1, print, emit. unfold bind at 1. rewrite Hex.
      unfold bind, ret. rewrite Hpath. reflexivity.
    + exfalso. revert Hc. unfold bind, client, call, print, emit, ret, raise.
      destruct (boto3_client X); [discriminate |].
      destruct (id_generator_run X 6 default_chars st1) as (s & -> & _); [done |].
      repeat case_match; simplify_eq; discriminate.
  - destruct (create_stack X (stackName init) (stackBody init) parameters st1)
      as [[o st2] tr2] eqn:Hpath.
    destruct (try_except_exit_outcome _ _ _ _ _ _ Hpath) as [[[] ->]|[->|[c Hc]]].
    + unfold try_except, bind at 1, print, emit. unfold bind at 1. rewrite Hex.
      unfold bind, ret. rewrite Hpath. simpl. by rewrite !app_nil_r.
    + unfold try_except, bind at 1, print, emit. unfold bind at 1. rewrite Hex.
      unfold bind, ret. rewrite Hpath. reflexivity.
    + exfalso. revert Hc. unfold bind, client, call, print, emit, ret, raise.
      repeat case_match; simplify_eq; discriminate.
Qed.
End Orchestrator.

(** ** Claims about the stack service *)

Section ServiceClaims.
Context (X : externals).

(** C2 (as the code has it). The prober reports the stack present when the
    describe call succeeds and absent on every [ClientError] the call
    raises, whatever the error is; only an exception that is not a
    [ClientError] leaves the prober, and [deploy_stack] then ends the
    process with status 2 before any create request. *)
Theorem stack_exists_classification stack_name st :
  boto3_client X = None ->
  stack_exists X stack_name st
  = match remote X (DescribeStacks stack_name) with
    | None =>
        (Ret true, st,
         [Remote (DescribeStacks stack_name);
          Printed (stack_name +:+ " stack found.")])
    | Some e =>
        if is_client_error e
        then (Ret false, st,
              [Remote (DescribeStacks stack_name);
               Printed (stack_name +:+ " stack not found.")])
        else (Raise e, st, [Remote (DescribeStacks stack_name)])
    end
  /\ forall e init parameters,
       stackName init = stack_name ->
       remote X (DescribeStacks stack_name) = Some e ->
       is_client_error e = false ->
       deploy_stack X init parameters st
       = (Exit 2, st,
          [checking stack_name; Remote (DescribeStacks stack_name);
           Printed ("An error has occurred during the stack creation: "
                  +:+ exn_str e)]).
Proof.
  intros Hc. split.
  - destruct (remote X (DescribeStacks stack_name)) as [e|] eqn:Hr.
    + by apply stack_exists_error.
    + by apply stack_exists_found.
  - intros e init parameters <- Hr Hcls.
    pose proof (stack_exists_error X (stackName init) st e Hc Hr) as Hex.
    rewrite Hcls in Hex.
    unfold deploy_stack, try_except, bind at 1, print, emit.
    unfold bind at 1. rewrite Hex. reflexivity.
Qed.

(** C5. Once the prober has answered, [deploy_stack] runs the change plan
    builder when the answer is "present" and the stack creator when it is
    "absent", and nothing else: no request of the other kind goes out, and
    (a client being available) exactly one of the chosen kind does. *)
Theorem deploy_stack_exactly_one_path init parameters st found st1 tr1 :
  stack_exists X (stackName init) st = (Ret found, st1, tr1) ->
  exists o st2 tr2,
    chosen_path X found init parameters st1 = (o, st2, tr2)
    /\ let tr := checking (stackName init) :: tr1
                 ++ banner found (stackName init) :: tr2 in
       deploy_stack X init parameters st = (o, st2, tr)
       /\ count_requests (if found then is_create_stack else is_create_change_set) tr = 0
       /\ (boto3_client X = None ->
           count_requests (if found then is_create_change_set else is_create_stack) tr = 1).
Proof.
  intros Hex.
  destruct (chosen_path X found init parameters st1) as [[o st2] tr2] eqn:Hpath.
  exists o, st2, tr2. split; [done |]. intros tr. split.
  { subst tr. rewrite (deploy_stack_run X _ _ _ _ _ _ Hex). by rewrite Hpath. }
  assert (Hreq : remote_requests tr = remote_requests tr1 ++ remote_requests tr2).
  { subst tr. change (checking ?s :: ?l) with ([checking s] ++ l).
    rewrite !remote_requests_app. by destruct found. }
  unfold count_requests. rewrite Hreq, !filter_app, !length_app.
  pose proof (stack_exists_requests X (stackName init) st) as Hpr.
  rewrite Hex in Hpr. simpl in Hpr.
  unfold chosen_path in Hpath. destruct found.
  - destruct (create_change_set_requests X (stackName init) (stackBody init)
                parameters st1) as (suffix & _ & Hcs).
    rewrite Hpath in Hcs. simpl in Hcs.
    destruct (boto3_client X) as [e|]; split.
    + rewrite Hcs. by destruct Hpr as [-> | ->].
    + intros [=].
    + by destruct Hpr as [-> | ->], Hcs as [-> | ->].
    + intros _. by destruct Hpr as [-> | ->], Hcs as [-> | ->].
  - pose proof (create_stack_requests X (stackName init) (stackBody init)
                  parameters st1) as Hcs.
    rewrite Hpath in Hcs. simpl in Hcs.
    destruct (boto3_client X) as [e|]; split.
    + rewrite Hcs. by destruct Hpr as [-> | ->].
    + intros [=].
    + by destruct Hpr as [-> | ->], Hcs as [-> | ->].
    + intros _. by destruct Hpr as [-> | ->], Hcs as [-> | ->].
Qed.

(** C7. The change-set name of every request of the change plan builder is
    the stack name, a hyphen, and a suffix of six characters, each a
    capital letter or a digit.  The suffix is random and made for this call:
    its character number [i] is the one that draw number [draws st + i] of
    the random generator picks from the thirty-six characters, the call
    takes these six draws, and the next call makes its suffix from the six
    draws that follow. *)
Theorem change_set_name_form stack_name body parameters st :
  boto3_client X = None ->
  exists suffix o st' tr,
    create_change_set X stack_name body parameters st = (o, st', tr)
    /\ id_generator X 6 default_chars st = (Ret suffix, st', [])
    /\ String.length suffix = 6
    /\ (forall c, PyStr.mem c suffix = true -> is_alnum c = true)
    /\ (forall i, i < 6 ->
          String.get i suffix
          = String.get (random_draw X (draws st + i) mod String.length default_chars)
              default_chars)
    /\ draws st' = draws st + 6
    /\ head (remote_requests tr)
       = Some (CreateChangeSet stack_name body parameters
                 (stack_name +:+ "-" +:+ suffix) CAPABILITIES)
    /\ (forall r n, r ∈ remote_requests tr -> change_set_name_of r = Some n ->
                    n = stack_name +:+ "-" +:+ suffix)
    /\ exists suffix2 st2,
         id_generator X 6 default_chars st' = (Ret suffix2, st2, [])
         /\ draws st2 = draws st + 12
         /\ forall i, i < 6 ->
              String.get i suffix2
              = String.get
                  (random_draw X (draws st + 6 + i) mod String.length default_chars)
                  default_chars.
Proof.
  intros Hc.
  destruct (id_generator_run X 6 default_chars st) as (suffix & Hid & Hlen & Hmem);
    [done |].
  pose proof (create_change_set_run X stack_name body parameters st suffix _ Hc Hid)
    as Hrun. simpl in Hrun.
  exists suffix.
  destruct (create_change_set X stack_name body parameters st) as [[o st'] tr].
  exists o, st', tr.
  assert (st' = State (fs st) (draws st + 6)
          /\ (remote_requests tr
              = [CreateChangeSet stack_name body parameters
                   (stack_name +:+ "-" +:+ suffix) CAPABILITIES]
              \/ remote_requests tr
                 = [CreateChangeSet stack_name body parameters
                      (stack_name +:+ "-" +:+ suffix) CAPABILITIES;
                    WaitChangeSetCreateComplete (stack_name +:+ "-" +:+ suffix)
                      stack_name 10])) as [-> Htr].
  { repeat case_match; simplify_eq; split; auto. }
  split_and!; try done.
  - intros c Hcin. by apply default_chars_alnum, Hmem.
  - by eapply (id_generator_draws X 6 default_chars st suffix); [| exact Hid].
  - by destruct Htr as [-> | ->].
  - intros r n Hr Hn.
    destruct Htr as [Htr | Htr]; rewrite Htr in Hr;
      repeat (apply elem_of_cons in Hr as [-> | Hr]; [by injection Hn as <- |]);
      by apply elem_of_nil in Hr.
  - destruct (id_generator_run X 6 default_chars (State (fs st) (draws st + 6)))
      as (suffix2 & Hid2 & _); [done |].
    exists suffix2, (State (fs st) (draws st + 6 + 6)). split_and!.
    + exact Hid2.
    + simpl. lia.
    + intros i Hi.
      by rewrite (id_generator_draws X 6 default_chars _ suffix2 _ ltac:(done) Hid2 i Hi).
Qed.
End ServiceClaims.

(** ** What the local steps emit *)

Section LocalSteps.
Context (X : externals) (P : event -> Prop).


Lemma emits_open_read path : emits P (open_read path).
Proof.
  intros st o st' tr. unfold open_read.
  destruct (fs st !! path); intros [= <- <- <-]; constructor.
Qed.





Lemma emits_exit_handler {A} msg : (forall s, P (Printed s)) ->
  emits P (print msg ;;; @sys_exit A 2).
Proof.
  intros HP. apply emits_bind; [apply emits_emit, HP | intros; apply emits_sys_exit].
Qed.


Lemma emits_merge_vars_file init :
  (forall s, P (Printed s)) -> emits P (merge_vars_file X init).
Proof.
  intros HP. unfold merge_vars_file. apply emits_try_except.
  - apply emits_bind; [apply emits_open_read | intros].
    apply emits_bind; [apply emits_lift | intros].
    apply emits_bind; [apply emits_open_read | intros].
    apply emits_bind; [apply emits_lift | intros].
    apply emits_lift.
  - intros e. by apply emits_exit_handler.
Qed.



Lemma emits_read_opts arg_help opts c :
  (forall s, P (Printed s)) -> emits P (read_opts arg_help opts c).
Proof.
  intros HP. revert c. induction opts as [|[opt arg] opts IH]; intros c; simpl.
  - apply emits_ret.
  - destruct (is_help opt); [by apply emits_exit_handler | apply IH].
Qed.
End LocalSteps.

(** ** Files and options *)

Lemma check_file_run file st :
  check_file file st
  = match fs st !! file with
    | Some _ => (Ret true, st, [])
    | None => (Exit 2, st, [not_a_file file])
    end.
Proof.
  unfold check_file, try_except, bind, isfile, raise, ret, print, emit, sys_exit.
  destruct (fs st !! file) as [text|] eqn:Hf.
  - rewrite bool_decide_eq_true_2 by eauto. reflexivity.
  - rewrite bool_decide_eq_false_2 by (intros [? [=]]). reflexivity.
Qed.

Lemma init_variables_run env t st :
  init_variables env t st
  = match fs st !! values_file_of env with
    | None => (Exit 2, st, [not_a_file (values_file_of env)])
    | Some _ =>
        match fs st !! t with
        | None => (Exit 2, st, [not_a_file t])
        | Some body =>
            match fs st !! json_file_of t with
            | None => (Exit 2, st, [not_a_file (json_file_of t)])
            | Some _ =>
                (Ret (InitDict (values_file_of env) (t_file_name_of t) (json_file_of t)
                        (stack_name_of env t) body), st, [])
            end
        end
    end.
Proof.
  unfold init_variables, try_except.
  fold (values_file_of env). fold (t_file_name_of t). fold (path_of t).
  fold (clean_name_of t). fold (json_file_of t). fold (stack_name_of env t).
  unfold bind at 1. rewrite check_file_run.
  destruct (fs st !! values_file_of env); [| reflexivity].
  unfold bind at 1. rewrite check_file_run.
  destruct (fs st !! t) as [body|] eqn:Ht; [| reflexivity].
  unfold bind at 1. rewrite check_file_run.
  destruct (fs st !! json_file_of t); [| reflexivity].
  unfold bind, open_read, ret. rewrite Ht. reflexivity.
Qed.

Lemma read_opts_run arg_help opts c st :
  read_opts arg_help opts c st
  = if has_help opts then (Exit 2, st, [Printed arg_help])
    else (Ret (fold_left assign opts c), st, []).
Proof.
  revert c. induction opts as [|[opt arg] opts IH]; intros c; [reflexivity |].
  unfold has_help in *. cbn [read_opts map fst existsb fold_left].
  destruct (is_help opt); [reflexivity | apply IH].
Qed.

(** ** The steps of [main] *)

Ltac only_prints :=
  repeat (apply List.Forall_cons;
          [first [left; reflexivity | right; eexists; reflexivity] |]);
  apply List.Forall_nil.

Section Main.
Context (X : externals).

Lemma main_run argv0 args st :
  main X (argv0 :: args) st
  = match getopt X args with
    | inl e => (Exit 2, st, main_failure (exn_str e))
    | inr (opts, _) =>
        if has_help opts then (Exit 2, st, [Printed (arg_help_of argv0)])
        else match argument_error (given opts) with
             | Some msg => (Exit 2, st, main_failure msg)
             | None => dispatch X (given opts) st
             end
    end.
Proof.
  unfold main. destruct (getopt X args) as [e|[opts rest]] eqn:Hg.
  - reflexivity.
  - unfold try_except at 1. unfold bind at 1. cbn [lift ret fst].
    unfold bind at 1. rewrite read_opts_run.
    change (fold_left assign opts _) with (given opts).
    destruct (has_help opts); [reflexivity |].
    unfold argument_error, dispatch, try_except.
    destruct (String.eqb (action (given opts)) EmptyString); [reflexivity |].
    destruct (negb _); [reflexivity |].
    destruct (String.eqb (environment (given opts)) EmptyString); [reflexivity |].
    destruct (String.eqb (template (given opts)) EmptyString); [reflexivity |].
    cbn [app].
    match goal with |- context [bind ?m ?k st] => destruct (bind m k st) as [[[]]] end;
      reflexivity.
Qed.

Lemma dispatch_init_Exit c st code st1 tr1 :
  init_variables (environment c) (template c) st = (Exit code, st1, tr1) ->
  dispatch X c st = (Exit code, st1, tr1).
Proof.
  intros Hinit. unfold dispatch, try_except, bind at 1. by rewrite Hinit.
Qed.


Lemma has_help_true opts :
  has_help opts = true
  <-> exists opt arg, (opt, arg) ∈ opts /\ (opt = "-h" \/ opt = "--help").
Proof.
  unfold has_help. rewrite existsb_exists. split.
  - intros (opt & Hin & Hh). apply in_map_iff in Hin as ([opt' arg] & <- & Hin).
    exists opt', arg. split; [by apply list_elem_of_In |].
    unfold is_help in Hh. apply orb_true_iff in Hh as [Hh|Hh];
      apply String.eqb_eq in Hh; auto.
  - intros (opt & arg & Hin & Hh). exists opt. split.
    + apply in_map_iff. exists (opt, arg). split; [done | by apply list_elem_of_In].
    + unfold is_help. by destruct Hh as [-> | ->].
Qed.

Lemma save_to_file_run name content extension st text :
  open_w_error X (name +:+ "." +:+ extension) = None ->
  json_dumps X true (Some 4) content = inr text ->
  save_to_file X name content extension st
  = (Ret tt, State (<[name +:+ "." +:+ extension := text]> (fs st)) (draws st), []).
Proof.
  intros Ho Hj. unfold save_to_file, try_except, bind, open_write, write_close, lift.
  rewrite Ho, Hj. simpl. by rewrite insert_insert_eq.
Qed.

(** *** Claims about whole invocations *)

(** C10. When the options hold the help flag, [main] prints the usage line
    and ends the process with status 2; nothing else is printed, requested
    or changed. *)
Theorem help_flag_exits_2 argv0 args opts rest st :
  getopt X args = inr (opts, rest) ->
  (exists opt arg, (opt, arg) ∈ opts /\ (opt = "-h" \/ opt = "--help")) ->
  main X (argv0 :: args) st = (Exit 2, st, [Printed (arg_help_of argv0)])
  /\ exit_status (main X (argv0 :: args) st).1.1 = 2%Z.
Proof.
  intros Hg Hh. apply has_help_true in Hh.
  assert (main X (argv0 :: args) st = (Exit 2, st, [Printed (arg_help_of argv0)])) as ->.
  { rewrite main_run, Hg, Hh. reflexivity. }
  done.
Qed.

(** When the values file of the environment, the template file or the file
    at the path that [init_variables] resolves for the parameter template is
    not there, the invocation ends with status 2: it has only printed, sent
    no request, and left the files as they were; when the arguments are
    accepted, its one line is the line of [check_file] for a file that is
    missing. *)
Theorem missing_file_exits_2 argv0 args opts rest st :
  getopt X args = inr (opts, rest) ->
  fs st !! values_file_of (environment (given opts)) = None
  \/ fs st !! template (given opts) = None
  \/ fs st !! json_file_of (template (given opts)) = None ->
  exists tr,
    main X (argv0 :: args) st = (Exit 2, st, tr)
    /\ exit_status (main X (argv0 :: args) st).1.1 = 2%Z
    /\ remote_requests tr = []
    /\ Forall (fun ev => ev = PrintTraceback \/ exists line, ev = Printed line) tr
    /\ (has_help opts = false -> argument_error (given opts) = None ->
        exists file, tr = [not_a_file file] /\ fs st !! file = None).
Proof.
  intros Hg Hmissing.
  assert (exists tr, main X (argv0 :: args) st = (Exit 2, st, tr)
                     /\ Forall (fun ev => ev = PrintTraceback
                                          \/ exists line, ev = Printed line) tr
                     /\ (has_help opts = false -> argument_error (given opts) = None ->
                         exists file, tr = [not_a_file file] /\ fs st !! file = None))
    as (tr & Hmain & Htr & Hline).
  { rewrite main_run, Hg. destruct (has_help opts).
    { eexists. split_and!; [reflexivity | only_prints | done]. }
    destruct (argument_error (given opts)) as [msg|].
    { eexists. split_and!; [reflexivity | unfold main_failure; only_prints | done]. }
    assert (exists file,
              init_variables (environment (given opts)) (template (given opts)) st
              = (Exit 2, st, [not_a_file file]) /\ fs st !! file = None)
      as (file & Hinit & Hfile).
    { rewrite init_variables_run.
      destruct Hmissing as [Hm|[Hm|Hm]]; repeat case_match; simplify_eq; eauto. }
    rewrite (dispatch_init_Exit _ _ _ _ _ Hinit).
    eexists. split_and!; [reflexivity | unfold not_a_file; only_prints | eauto]. }
  exists tr. rewrite Hmain. split_and!; try done.
  apply Forall_not_remote. eapply Forall_impl; [exact Htr |].
  intros ev [->|[line ->]]; reflexivity.
Qed.





End Main.

(** ** Parameter Renderer *)

Lemma code_effects_Code effects : code_effects (map Code effects) = effects.
Proof. induction effects as [|c effects IH]; [done |]. simpl. by rewrite IH. Qed.

Section Renderer.
Context (X : externals).

Lemma merge_vars_file_no_code init st o st1 tr1 :
  merge_vars_file X init st = (o, st1, tr1) -> code_effects tr1 = [].
Proof.
  intros Hm. apply Forall_not_code.
  eapply emits_merge_vars_file; [| exact Hm]. intros s c. discriminate.
Qed.

(** C1 (as the code has it). Step (b) of the renderer is [list(eval(text))]
    on the rendered text: the process performs every side effect that
    evaluating the text as a Python expression has, and ends as the
    evaluation ends: with the list, with status 2 when the evaluation or
    [list] raises, or with the status of a [SystemExit] the text raises. *)
Theorem fill_json_evaluates_rendered_text init st parameter_file vals st1 tr1 rendered :
  fs st !! jsonFile init = Some parameter_file ->
  merge_vars_file X init st = (Ret vals, st1, tr1) ->
  jinja2_render X parameter_file vals = inr rendered ->
  exists o tr,
    fill_json X init st = (o, st1, tr)
    /\ code_effects tr = (py_eval X rendered).1
    /\ o = match (py_eval X rendered).2 with
           | Ret v => match py_list v with inr l => Ret l | inl _ => Exit 2 end
           | Raise _ => Exit 2
           | Exit code => Exit code
           end.
Proof.
  intros Hfile Hmerge Hrender.
  pose proof (merge_vars_file_no_code _ _ _ _ _ Hmerge) as Hnocode.
  unfold fill_json, try_except.
  assert (open_read (jsonFile init) st = (Ret parameter_file, st, [])) as Hread.
  { unfold open_read. by rewrite Hfile. }
  rewrite (bind_Ret _ _ _ _ _ _ Hread), (bind_Ret _ _ _ _ _ _ Hmerge).
  unfold bind, emit, eval, print, sys_exit. rewrite Hrender. cbn [lift ret].
  destruct (py_eval X rendered) as [effects [v|e|code]]; cbn [fst snd];
    [destruct (py_list v) as [e|l]; cbn [lift ret raise] | |];
    eexists _, _; (split; [reflexivity |]); (split; [| reflexivity]);
    repeat first [ rewrite code_effects_app | rewrite code_effects_Code
                 | rewrite code_effects_Remote | rewrite Hnocode | rewrite app_nil_r | progress simpl ];
    reflexivity.
Qed.
End Renderer.

(** ** The names that [init_variables] computes

    For a template [dir/b.yaml] (or [.yml]) whose file name does not occur
    again in [dir] and whose base name holds neither extension, the names
    are the ones the comments of the source describe. *)

Section Names.
Import PyStrFacts.

Variables (dir b ext : string).
Hypothesis ext_yaml : ext = ".yaml" \/ ext = ".yml".
Hypothesis dir_slash : dir = EmptyString \/ exists d, dir = d +:+ "/".
Hypothesis base_no_slash : PyStr.mem "/" b = false.
Hypothesis name_once : PyStr.occurs (b +:+ ext) dir = false.
Hypothesis base_no_yaml : PyStr.occurs ".yaml" b = false.
Hypothesis base_no_yml : PyStr.occurs ".yml" b = false.

Let t : string := dir +:+ b +:+ ext.

Lemma file_name_no_slash : PyStr.mem "/" (b +:+ ext) = false.
Proof.
  rewrite mem_app, base_no_slash. by destruct ext_yaml as [H | H]; rewrite H.
Qed.

Lemma file_name_nonempty : b +:+ ext <> EmptyString.
Proof.
  intros Hnil%str_app_eq_nil. by destruct ext_yaml as [H | H]; rewrite H in Hnil.
Qed.

Lemma regular_t_file_name : t_file_name_of t = b +:+ ext.
Proof.
  unfold t_file_name_of, t. destruct dir_slash as [Hd | [d Hd]]; rewrite Hd.
  - change (EmptyString +:+ b +:+ ext) with (b +:+ ext).
    by rewrite (split_no_sep _ _ file_name_no_slash).
  - rewrite str_app_assoc. change ("/" +:+ b +:+ ext) with (String "/" (b +:+ ext)).
    rewrite split_app_sep, last_item_app by apply split_nonempty.
    by rewrite (split_no_sep _ _ file_name_no_slash).
Qed.

Lemma regular_path : path_of t = dir.
Proof.
  unfold path_of. rewrite regular_t_file_name.
  rewrite replace_nonempty by apply file_name_nonempty.
  unfold t. rewrite replace_go_at_end, str_app_nil_r;
    [done | apply file_name_nonempty | apply name_once |].
  intros u v Hdir Hv Hp.
  destruct (prefix_app_cases _ _ _ Hp) as [|Hvp]; [done |]. exfalso.
  assert (PyStr.mem "/" v = true) as Hmem.
  { apply mem_ends_with. destruct dir_slash as [Hnil | [d Hd]].
    - rewrite Hnil in Hdir. symmetry in Hdir. by apply str_app_eq_nil in Hdir.
    - apply (ends_with_suffix _ u); [| done].
      rewrite <- Hdir, Hd. apply ends_with_app_sep. }
  pose proof (mem_prefix _ _ _ Hvp Hmem) as Hf.
  by rewrite file_name_no_slash in Hf.
Qed.

Lemma regular_clean_name : clean_name_of t = b.
Proof.
  unfold clean_name_of. rewrite regular_t_file_name.
  rewrite !replace_nonempty by done.
  destruct ext_yaml as [H | H]; rewrite H.
  - rewrite replace_go_at_end, str_app_nil_r;
      [| done | exact base_no_yaml | intros u v _; apply yaml_no_overlap].
    apply replace_go_absent, base_no_yml.
  - rewrite (replace_go_absent ".yaml").
    + rewrite replace_go_at_end, str_app_nil_r;
        [done | done | exact base_no_yml | intros u v _; apply yml_no_overlap].
    + apply occurs_app_absent; [exact base_no_yaml | done |].
      intros u v _. apply yaml_yml_no_overlap.
Qed.

(** X19. On a regular template path the names are those that the comments
    of the source describe: the file name is the last component, the
    parameter template is [<base>.json] in the template's directory, and the
    stack is [ct-<env>-base-<base>-stack]. *)
Theorem regular_template_names env :
  t_file_name_of t = b +:+ ext
  /\ json_file_of t = dir +:+ b +:+ ".json"
  /\ stack_name_of env t = "ct-" +:+ env +:+ "-base-" +:+ b +:+ "-stack".
Proof.
  unfold json_file_of, stack_name_of.
  by rewrite regular_t_file_name, regular_path, regular_clean_name.
Qed.

End Names.

(** ** The claims on a concrete run *)

Lemma demo_holds_common : holds_values Demo.X Demo.st COMMON_FILE_PATH Demo.common.
Proof.
  exists Demo.common_text. split_and!; [reflexivity | reflexivity |].
  unfold PyDict.wf. simpl. apply (bool_decide_unpack _). vm_compute. exact I.
Defined.

Lemma demo_holds_custom :
  holds_values Demo.X Demo.st (valuesFile Demo.init) Demo.custom.
Proof.
  exists Demo.prod_text. split_and!; [reflexivity | reflexivity |].
  unfold PyDict.wf. simpl. apply (bool_decide_unpack _). vm_compute. exact I.
Defined.

Lemma merge_shared_defaults_win_demo :
  exists merged,
    merge_vars_file Demo.X Demo.init Demo.st = (Ret (PyDict merged), Demo.st, [])
    /\ PyDict.get "Env" merged = Some (PyStr "shared").
Proof.
  apply (merge_shared_defaults_win Demo.X Demo.init Demo.st Demo.common Demo.custom
           "Env" (PyStr "shared") (PyStr "prod")).
  - exact demo_holds_common.
  - exact demo_holds_custom.
  - reflexivity.
  - reflexivity.
Defined.

Lemma merge_keys_union_once_demo :
  exists merged,
    merge_vars_file Demo.X Demo.init Demo.st = (Ret (PyDict merged), Demo.st, [])
    /\ (forall k, PyDict.get k Demo.custom = None ->
                  PyDict.get k merged = PyDict.get k Demo.common)
    /\ (forall k, PyDict.get k Demo.common = None ->
                  PyDict.get k merged = PyDict.get k Demo.custom)
    /\ (forall k, k ∈ PyDict.keys merged
                  <-> k ∈ PyDict.keys Demo.common \/ k ∈ PyDict.keys Demo.custom)
    /\ NoDup (PyDict.keys merged).
Proof.
  apply (merge_keys_union_once Demo.X Demo.init Demo.st Demo.common Demo.custom).
  - exact demo_holds_common.
  - exact demo_holds_custom.
Defined.

(** C1, counterexample. The parameter template is an expression with a call
    in it; it renders to itself, [eval] runs the call, and the process goes
    on with the value of the expression. *)
Lemma fill_json_executes_rendered_code :
  fs Demo.st_code !! jsonFile Demo.init = Some Demo.code_text
  /\ code_effects (fill_json Demo.X Demo.init Demo.st_code).2 = ["os.system('id')"]
  /\ (fill_json Demo.X Demo.init Demo.st_code).1.1 = Ret (PyList [PyInt 0]).
Proof. split_and!; vm_compute; reflexivity. Qed.

Lemma fill_json_evaluates_rendered_text_demo :
  exists o tr,
    fill_json Demo.X Demo.init Demo.st = (o, Demo.st, tr)
    /\ code_effects tr = []
    /\ o = Ret (Demo.parameters_for "shared").
Proof.
  apply (fill_json_evaluates_rendered_text Demo.X Demo.init Demo.st Demo.parameter_text
           (PyDict (PyDict.update Demo.custom Demo.common)) Demo.st []
           (Demo.rendered_for "shared")).
  - reflexivity.
  - vm_compute. reflexivity.
  - vm_compute. reflexivity.
Defined.

(** C2, counterexample. The describe call is throttled, which is not a
    not-found answer; the prober reports the stack absent, and the deploy
    invocation goes on to request the creation of the stack. *)
Lemma stack_exists_takes_throttling_for_absent :
  remote Demo.X_throttled (DescribeStacks "ct-prod-base-vpc-stack") = Some Demo.throttled
  /\ stack_exists Demo.X_throttled "ct-prod-base-vpc-stack" Demo.st
     = (Ret false, Demo.st,
        [Remote (DescribeStacks "ct-prod-base-vpc-stack");
         Printed "ct-prod-base-vpc-stack stack not found."])
  /\ remote_requests (main Demo.X_throttled (Demo.argv "deploy") Demo.st).2
     = [DescribeStacks "ct-prod-base-vpc-stack";
        CreateStack "ct-prod-base-vpc-stack" Demo.body_text
          (Demo.parameters_for "shared") CAPABILITIES;
        WaitStackCreateComplete "ct-prod-base-vpc-stack" 10].
Proof. split_and!; vm_compute; reflexivity. Qed.

Lemma stack_exists_classification_demo :
  stack_exists Demo.X_no_credentials "ct-prod-base-vpc-stack" Demo.st
  = (Raise Demo.no_credentials, Demo.st,
     [Remote (DescribeStacks "ct-prod-base-vpc-stack")])
  /\ deploy_stack Demo.X_no_credentials Demo.init (Demo.parameters_for "shared") Demo.st
     = (Exit 2, Demo.st,
        [checking "ct-prod-base-vpc-stack";
         Remote (DescribeStacks "ct-prod-base-vpc-stack");
         Printed "An error has occurred during the stack creation: Unable to locate credentials"]).
Proof.
  destruct (stack_exists_classification Demo.X_no_credentials "ct-prod-base-vpc-stack"
              Demo.st eq_refl) as [Hprobe Hdeploy].
  split.
  - exact Hprobe.
  - exact (Hdeploy Demo.no_credentials Demo.init (Demo.parameters_for "shared")
             eq_refl eq_refl eq_refl).
Defined.

Lemma deploy_stack_exactly_one_path_demo :
  exists o st2 tr2,
    chosen_path Demo.X true Demo.init (Demo.parameters_for "shared") Demo.st = (o, st2, tr2)
    /\ let tr := checking "ct-prod-base-vpc-stack"
                 :: [Remote (DescribeStacks "ct-prod-base-vpc-stack");
                     Printed "ct-prod-base-vpc-stack stack found."]
                 ++ banner true "ct-prod-base-vpc-stack" :: tr2 in
       deploy_stack Demo.X Demo.init (Demo.parameters_for "shared") Demo.st = (o, st2, tr)
       /\ count_requests is_create_stack tr = 0
       /\ (boto3_client Demo.X = None -> count_requests is_create_change_set tr = 1).
Proof.
  apply (deploy_stack_exactly_one_path Demo.X Demo.init (Demo.parameters_for "shared")
           Demo.st true Demo.st).
  vm_compute. reflexivity.
Defined.

Lemma change_set_name_form_demo :
  exists suffix o st' tr,
    create_change_set Demo.X "ct-prod-base-vpc-stack" Demo.body_text
      (Demo.parameters_for "shared") Demo.st = (o, st', tr)
    /\ id_generator Demo.X 6 default_chars Demo.st = (Ret suffix, st', [])
    /\ String.length suffix = 6
    /\ (forall c, PyStr.mem c suffix = true -> is_alnum c = true)
    /\ (forall i, i < 6 ->
          String.get i suffix
          = String.get
              (random_draw Demo.X (draws Demo.st + i) mod String.length default_chars)
              default_chars)
    /\ draws st' = draws Demo.st + 6
    /\ head (remote_requests tr)
       = Some (CreateChangeSet "ct-prod-base-vpc-stack" Demo.body_text
                 (Demo.parameters_for "shared")
                 ("ct-prod-base-vpc-stack" +:+ "-" +:+ suffix) CAPABILITIES)
    /\ (forall r n, r ∈ remote_requests tr -> change_set_name_of r = Some n ->
                    n = "ct-prod-base-vpc-stack" +:+ "-" +:+ suffix)
    /\ exists suffix2 st2,
         id_generator Demo.X 6 default_chars st' = (Ret suffix2, st2, [])
         /\ draws st2 = draws Demo.st + 12
         /\ forall i, i < 6 ->
              String.get i suffix2
              = String.get
                  (random_draw Demo.X (draws Demo.st + 6 + i)
                   mod String.length default_chars)
                  default_chars.
Proof.
  apply (change_set_name_form Demo.X "ct-prod-base-vpc-stack" Demo.body_text
           (Demo.parameters_for "shared") Demo.st).
  reflexivity.
Defined.

Lemma help_flag_exits_2_demo :
  main Demo.X ["compile_and_execute_template.py"; "--help"] Demo.st
  = (Exit 2, Demo.st,
     [Printed "compile_and_execute_template.py -e <environment> -t <template> -a <fill|deploy>"])
  /\ exit_status
       (main Demo.X ["compile_and_execute_template.py"; "--help"] Demo.st).1.1 = 2%Z.
Proof.
  apply (help_flag_exits_2 Demo.X "compile_and_execute_template.py" ["--help"]
           [("--help", EmptyString)] [] Demo.st).
  - reflexivity.
  - exists "--help", EmptyString. split; [apply list_elem_of_here | right; reflexivity].
Defined.

Lemma missing_file_exits_2_demo :
  exists tr,
    main Demo.X ["compile_and_execute_template.py"; "-e"; "staging";
                 "-t"; "templates/vpc.yaml"; "-a"; "deploy"] Demo.st
    = (Exit 2, Demo.st, tr)
    /\ exit_status
         (main Demo.X ["compile_and_execute_template.py"; "-e"; "staging";
                       "-t"; "templates/vpc.yaml"; "-a"; "deploy"] Demo.st).1.1 = 2%Z
    /\ remote_requests tr = []
    /\ Forall (fun ev => ev = PrintTraceback \/ exists line, ev = Printed line) tr
    /\ (has_help [("-e", "staging"); ("-t", "templates/vpc.yaml"); ("-a", "deploy")]
        = false ->
        argument_error
          (given [("-e", "staging"); ("-t", "templates/vpc.yaml"); ("-a", "deploy")])
        = None ->
        exists file, tr = [not_a_file file] /\ fs Demo.st !! file = None).
Proof.
  apply (missing_file_exits_2 Demo.X "compile_and_execute_template.py"
           ["-e"; "staging"; "-t"; "templates/vpc.yaml"; "-a"; "deploy"]
           [("-e", "staging"); ("-t", "templates/vpc.yaml"); ("-a", "deploy")] []
           Demo.st).
  - reflexivity.
  - left. vm_compute. reflexivity.
Defined.


(** C6, at an input where the code misses it.  The template is
    [vpc.yaml.d/vpc.yaml], and no parameter template [vpc.yaml.d/vpc.json]
    lies next to it.  [init_variables] looks for the parameter template at
    [.d/vpc.json] (the [replace] of C9), a file is there, and the deploy
    invocation goes on: it renders that file, sends three requests to the
    stack service and ends with status 0. *)
Theorem missing_parameter_template_is_not_noticed :
  fs Demo2.st_stray !! "vpc.yaml.d/vpc.json" = None
  /\ json_file_of "vpc.yaml.d/vpc.yaml" = ".d/vpc.json"
  /\ init_variables "prod" "vpc.yaml.d/vpc.yaml" Demo2.st_stray
     = (Ret (InitDict "cf_vars/prod.yml" "vpc.yaml" ".d/vpc.json"
               "ct-prod-base-vpc-stack" Demo.body_text),
        Demo2.st_stray, [])
  /\ exit_status (main Demo.X Demo2.argv_stray Demo2.st_stray).1.1 = 0%Z
  /\ remote_requests (main Demo.X Demo2.argv_stray Demo2.st_stray).2
     = [DescribeStacks "ct-prod-base-vpc-stack";
        CreateChangeSet "ct-prod-base-vpc-stack" Demo.body_text
          (Demo.parameters_for "shared") "ct-prod-base-vpc-stack-DKRY5C" CAPABILITIES;
        WaitChangeSetCreateComplete "ct-prod-base-vpc-stack-DKRY5C"
          "ct-prod-base-vpc-stack" 10].
Proof. split_and!; vm_compute; reflexivity. Qed.


(** C9, at inputs where the code misses it. [replace] removes every
    occurrence: of the file name in the template path, and of the two
    extensions in the file name.  With the template [vpc.yaml.d/vpc.yaml] the
    parameter template is looked for at [.d/vpc.json], and the invocation
    stops although [vpc.yaml.d/vpc.json] is there; with the template
    [templates/vpc.yml.yaml], whose base name is [vpc.yml], the stack is
    named after [vpc]. *)
Theorem init_variables_replace_removes_every_occurrence :
  json_file_of "vpc.yaml.d/vpc.yaml" = ".d/vpc.json"
  /\ fs Demo.st_nested !! "vpc.yaml.d/vpc.json" = Some Demo.parameter_text
  /\ init_variables "prod" "vpc.yaml.d/vpc.yaml" Demo.st_nested
     = (Exit 2, Demo.st_nested, [not_a_file ".d/vpc.json"])
  /\ t_file_name_of "templates/vpc.yml.yaml" = "vpc.yml.yaml"
  /\ stack_name_of "prod" "templates/vpc.yml.yaml" = "ct-prod-base-vpc-stack"
  /\ json_file_of "templates/vpc.yml.yaml" = "templates/vpc.json".
Proof. split_and!; vm_compute; reflexivity. Qed.

(** ** The run of the specification's example *)

Example replace_all : PyStr.replace ".yaml" EmptyString "a.yaml.b.yaml" = "a.b".
Proof. reflexivity. Qed.

Example split_path :
  PyStr.split "/"%char "templates/sub/vpc.yaml" = ["templates"; "sub"; "vpc.yaml"].
Proof. reflexivity. Qed.

Example demo_init :
  init_variables "prod" "templates/vpc.yaml" Demo.st = (Ret Demo.init, Demo.st, []).
Proof. vm_compute. reflexivity. Qed.

Example demo_main_fill : exit_status (main Demo.X (Demo.argv "fill") Demo.st).1.1 = 0%Z.
Proof. vm_compute. reflexivity. Qed.

Example demo_main_fill_fs :
  fs (main Demo.X (Demo.argv "fill") Demo.st).1.2 !! "ct-prod-base-vpc-stack.json"
  = Some (Demo.dumped_for "shared").
Proof. vm_compute. reflexivity. Qed.

Example demo_main_deploy :
  remote_requests (main Demo.X (Demo.argv "deploy") Demo.st).2
  = [DescribeStacks "ct-prod-base-vpc-stack";
     CreateChangeSet "ct-prod-base-vpc-stack" Demo.body_text (Demo.parameters_for "shared")
       "ct-prod-base-vpc-stack-DKRY5C" CAPABILITIES;
     WaitChangeSetCreateComplete "ct-prod-base-vpc-stack-DKRY5C" "ct-prod-base-vpc-stack" 10].
Proof. vm_compute. reflexivity. Qed.

Lemma regular_names_demo :
  t_file_name_of "templates/vpc.yaml" = "vpc.yaml"
  /\ json_file_of "templates/vpc.yaml" = "templates/vpc.json"
  /\ stack_name_of "prod" "templates/vpc.yaml" = "ct-prod-base-vpc-stack".
Proof.
  apply (regular_template_names "templates/" "vpc" ".yaml"); try reflexivity.
  - by left.
  - right. by exists "templates".
Defined.

(** * Further properties of the script *)

(** ** How runs end *)

Section Ends.
Context (X : externals).































End Ends.

(** ** Which files a run changes *)

Section Frames.
Context (X : externals) (T : string -> Prop).

Lemma frames_pure {A} (m : M A) : (forall st, (m st).1.2 = st) -> frames T m.
Proof. intros Hm st p _. by rewrite Hm. Qed.











Lemma frames_check_file file : frames T (check_file file).
Proof.
  apply frames_pure. intros st. rewrite check_file_run. by destruct (fs st !! file).
Qed.









End Frames.

Section FilesOfMain.
Context (X : externals).



End FilesOfMain.


(** ** Requests of a whole invocation *)

Section RequestsOfMain.
Context (X : externals).







End RequestsOfMain.

(** ** Saving the parameter list *)

Section Saving.
Context (X : externals).

(** X5. When the parameter list cannot be serialised, [save_to_file] has
    already opened the output file for writing: the file is left empty,
    whatever it held before, the error is printed and the process ends with
    status 2. *)
Theorem save_to_file_unserializable_truncates name content extension st e :
  open_w_error X (name +:+ "." +:+ extension) = None ->
  json_dumps X true (Some 4) content = inl e ->
  save_to_file X name content extension st
  = (Exit 2,
     State (<[name +:+ "." +:+ extension := EmptyString]> (fs st)) (draws st),
     [Printed ("An error occurred during the save of json file: " +:+ exn_str e)]).
Proof.
  intros Ho Hj. unfold save_to_file, try_except, bind, open_write, lift.
  rewrite Ho, Hj. reflexivity.
Qed.

(** X6. After a successful [save_to_file], reading the output file gives
    the serialised text back; every other file, and the random generator,
    are as before, and nothing was printed or requested. *)
Theorem save_to_file_read_back name content extension st text :
  open_w_error X (name +:+ "." +:+ extension) = None ->
  json_dumps X true (Some 4) content = inr text ->
  exists st',
    save_to_file X name content extension st = (Ret tt, st', [])
    /\ open_read (name +:+ "." +:+ extension) st' = (Ret text, st', [])
    /\ (forall p, p <> name +:+ "." +:+ extension -> fs st' !! p = fs st !! p)
    /\ draws st' = draws st.
Proof.
  intros Ho Hj. eexists. split; [by apply save_to_file_run |]. split_and!.
  - unfold open_read. simpl. by rewrite lookup_insert_eq.
  - intros p Hp. simpl. by apply lookup_insert_ne.
  - reflexivity.
Qed.

End Saving.

(** ** More on the merger *)

Module PyDictOrder.
Section Order.
Context {K V : Type} `{EqDecision K}.
Implicit Types (d other : PyDict.dict K V) (k : K) (v : V).

Lemma filter_ext_elem (P Q : K -> Prop) `{!forall x, Decision (P x)}
    `{!forall x, Decision (Q x)} (l : list K) :
  (forall x, x ∈ l -> (P x <-> Q x)) -> filter P l = filter Q l.
Proof.
  induction l as [|x l IH]; intros Hl; [done |].
  rewrite !filter_cons.
  assert (filter P l = filter Q l) as ->.
  { apply IH. intros y Hy. apply Hl. by apply list_elem_of_further. }
  pose proof (Hl x (list_elem_of_here _ _)) as Hx.
  destruct (decide (P x)), (decide (Q x)); tauto.
Qed.

(** The keys after [update]: those of [d] in their order, then the new keys
    of [other] in theirs. *)
Lemma keys_update d other :
  NoDup (PyDict.keys other) ->
  PyDict.keys (PyDict.update d other)
  = PyDict.keys d ++ filter (fun k => k ∉ PyDict.keys d) (PyDict.keys other).
Proof.
  revert d. induction other as [|[k1 v1] other IH]; intros d Hnd.
  - simpl. by rewrite app_nil_r.
  - change (PyDict.keys ((k1, v1) :: other)) with (k1 :: PyDict.keys other) in *.
    apply NoDup_cons in Hnd as [Hk1 Hnd].
    rewrite PyDictFacts.update_cons, IH by done.
    rewrite PyDictFacts.keys_setitem, filter_cons.
    destruct (decide (k1 ∈ PyDict.keys d)) as [Hin|Hin].
    + by rewrite decide_False by tauto.
    + rewrite decide_True by done. rewrite <- app_assoc. simpl. do 2 f_equal.
      apply filter_ext_elem. intros x Hx.
      rewrite not_elem_of_app, list_elem_of_singleton.
      split; [tauto |]. intros Hxd. split; [done |]. by intros ->.
Qed.

Lemma setitem_same k v d : PyDict.get k d = Some v -> PyDict.setitem k v d = d.
Proof.
  induction d as [|[k1 v1] d IH]; [done |]. simpl.
  destruct (decide (k = k1)) as [->|Hne].
  - by intros [= ->].
  - intros Hk. by rewrite IH.
Qed.

Lemma get_item k v d : PyDict.wf d -> (k, v) ∈ d -> PyDict.get k d = Some v.
Proof.
  induction d as [|[k1 v1] d IH]; intros Hwf Hin; [by apply elem_of_nil in Hin |].
  unfold PyDict.wf in Hwf. simpl in Hwf. apply NoDup_cons in Hwf as [Hk1 Hwf].
  simpl. apply elem_of_cons in Hin as [[= -> ->]|Hin].
  - by rewrite decide_True.
  - rewrite decide_False; [by apply IH |].
    intros ->. apply Hk1. apply list_elem_of_fmap. by exists (k1, v).
Qed.

(** An [update] with items that [d] already has changes nothing. *)
Lemma update_agree d other :
  (forall k v, (k, v) ∈ other -> PyDict.get k d = Some v) ->
  PyDict.update d other = d.
Proof.
  induction other as [|[k1 v1] other IH]; intros Hagree; [done |].
  rewrite PyDictFacts.update_cons, setitem_same.
  - apply IH. intros k v Hin. apply Hagree. by apply list_elem_of_further.
  - apply Hagree, list_elem_of_here.
Qed.

End Order.
End PyDictOrder.

Section MergerMore.
Context (X : externals).

(** X7. The merged value set keeps the keys of the environment's set in
    their order and appends the keys that only the shared defaults have, in
    the order of the shared file. *)
Theorem merge_key_order init st common custom :
  holds_values X st COMMON_FILE_PATH common ->
  holds_values X st (valuesFile init) custom ->
  exists merged,
    merge_vars_file X init st = (Ret (PyDict merged), st, [])
    /\ PyDict.keys merged
       = PyDict.keys custom
         ++ filter (fun k => k ∉ PyDict.keys custom) (PyDict.keys common).
Proof.
  intros Hcommon Hcustom. exists (PyDict.update custom common). split.
  - by apply merge_vars_file_run.
  - destruct Hcommon as (? & _ & _ & Hwf). by apply PyDictOrder.keys_update.
Qed.

(** X8. Shared defaults that the environment's set already holds with the
    same values change nothing: the merger returns the environment's set as
    it is.  This covers an empty shared mapping and the environment whose
    values file is the shared file. *)
Theorem merge_agreeing_defaults init st common custom :
  holds_values X st COMMON_FILE_PATH common ->
  holds_values X st (valuesFile init) custom ->
  (forall k v, PyDict.get k common = Some v -> PyDict.get k custom = Some v) ->
  merge_vars_file X init st = (Ret (PyDict custom), st, []).
Proof.
  intros Hcommon Hcustom Hagree.
  rewrite (merge_vars_file_run X _ _ _ _ Hcommon Hcustom). do 4 f_equal.
  destruct Hcommon as (? & _ & _ & Hwf).
  apply PyDictOrder.update_agree. intros k v Hin.
  by apply Hagree, PyDictOrder.get_item.
Qed.

End MergerMore.

(** ** What the merger and the renderer return *)

Section Returns.
Context {A B : Type}.




End Returns.

Section MergerRenderer.
Context (X : externals).


Lemma fill_json_without_shared_defaults init st parameter_file :
  fs st !! jsonFile init = Some parameter_file ->
  fs st !! COMMON_FILE_PATH = None ->
  fill_json X init st
  = (Exit 2, st,
     [Printed ("An error has occurred merging the vars files: "
               +:+ "[Errno 2] No such file or directory: 'cf_vars/common.yml'")]).
Proof.
  intros Hj Hc.
  unfold fill_json, try_except, bind at 1, open_read. rewrite Hj.
  unfold bind at 1, merge_vars_file, try_except, bind at 1, open_read.
  rewrite Hc. reflexivity.
Qed.

(** X10. [init_variables] does not check the shared defaults file.  When the
    three files it checks exist and [cf_vars/common.yml] does not, an
    accepted invocation, [fill] or [deploy], ends in the merger: one line
    about merging is printed, the status is 2, nothing is rendered,
    evaluated, requested or written. *)
Theorem missing_shared_defaults_exits_2 argv0 args opts rest st :
  getopt X args = inr (opts, rest) ->
  has_help opts = false ->
  argument_error (given opts) = None ->
  is_Some (fs st !! values_file_of (environment (given opts))) ->
  is_Some (fs st !! template (given opts)) ->
  is_Some (fs st !! json_file_of (template (given opts))) ->
  fs st !! COMMON_FILE_PATH = None ->
  main X (argv0 :: args) st
  = (Exit 2, st,
     [Printed ("An error has occurred merging the vars files: "
               +:+ "[Errno 2] No such file or directory: 'cf_vars/common.yml'")]).
Proof.
  intros Hg Hh Hargs [vtext Hv] [body Ht] [ptext Hj] Hc.
  rewrite main_run, Hg, Hh, Hargs.
  set (c := given opts) in *.
  assert (exists init,
            init_variables (environment c) (template c) st = (Ret init, st, [])
            /\ jsonFile init = json_file_of (template c)) as (init & Hinit & Hjf).
  { rewrite init_variables_run, Hv, Ht, Hj. by eexists. }
  assert (fill_json X init st
          = (Exit 2, st,
             [Printed ("An error has occurred merging the vars files: "
                       +:+ "[Errno 2] No such file or directory: 'cf_vars/common.yml'")]))
    as Hfill.
  { apply (fill_json_without_shared_defaults init st ptext); [by rewrite Hjf | done]. }
  unfold dispatch, try_except. rewrite (bind_Ret _ _ _ _ _ _ Hinit).
  unfold bind at 1.
  destruct (String.eqb (action c) (Actions_value DEPLOY)) eqn:Hdeploy.
  - by rewrite (bind_Exit _ _ _ _ _ _ Hfill).
  - unfold ret at 1. unfold bind at 1.
    assert (String.eqb (action c) (Actions_value FILL) = true) as ->.
    { revert Hargs. unfold argument_error.
      destruct (String.eqb (action c) EmptyString); [done |].
      cbn [map Actions_members existsb]. rewrite Hdeploy.
      by destruct (String.eqb (action c) (Actions_value FILL)). }
    by rewrite (bind_Exit _ _ _ _ _ _ Hfill).
Qed.



End MergerRenderer.

(** ** The identifier generator *)

Section Generator.
Context (X : externals).

(** X12. For every size and every non-empty alphabet, [id_generator]
    returns a string of exactly that size over the alphabet and takes one
    draw per character.  With an empty alphabet it raises as soon as one
    character is needed, and returns the empty string when none is. *)
Theorem id_generator_any_size n chars st :
  (chars <> EmptyString ->
   exists s,
     id_generator X n chars st = (Ret s, State (fs st) (draws st + n), [])
     /\ String.length s = n
     /\ forall c, PyStr.mem c s = true -> PyStr.mem c chars = true)
  /\ (chars = EmptyString ->
      id_generator X n chars st
      = match n with
        | O => (Ret EmptyString, st, [])
        | S _ => (Raise (Exn OtherError "Cannot choose from an empty sequence"), st, [])
        end).
Proof.
  split.
  - intros Hne. by apply id_generator_run.
  - intros ->. by destruct n.
Qed.

(** X13. An identifier of [n + m] characters is an identifier of [n]
    characters followed by one of [m] characters generated right after it:
    successive calls take successive draws and never share one. *)
Theorem id_generator_add n m chars st :
  chars <> EmptyString ->
  exists s1 st1 s2 st2,
    id_generator X n chars st = (Ret s1, st1, [])
    /\ id_generator X m chars st1 = (Ret s2, st2, [])
    /\ draws st1 = draws st + n
    /\ id_generator X (n + m) chars st = (Ret (s1 +:+ s2), st2, []).
Proof.
  intros Hne. revert st. induction n as [|n IH]; intros st.
  - destruct (id_generator_run X m chars st Hne) as (s2 & Hs2 & _).
    exists EmptyString, st, s2, (State (fs st) (draws st + m)).
    split_and!; [done | done | simpl; lia | done].
  - destruct (random_choice_run X chars st Hne) as (c & Hc & _).
    destruct (IH (State (fs st) (S (draws st)))) as (s1 & st1 & s2 & st2 & H1 & H2 & Hd & H12).
    exists (String c s1), st1, s2, st2. split_and!.
    + cbn [id_generator]. rewrite (bind_Ret _ _ _ _ _ _ Hc), (bind_Ret _ _ _ _ _ _ H1).
      reflexivity.
    + done.
    + rewrite Hd. simpl. lia.
    + cbn [Nat.add id_generator].
      rewrite (bind_Ret _ _ _ _ _ _ Hc), (bind_Ret _ _ _ _ _ _ H12). reflexivity.
Qed.

End Generator.

(** ** The calls on the stack service *)

(** [H] says that an event or a request is in a list that does not hold it. *)
Ltac no_member H :=
  repeat (apply elem_of_cons in H as [H|H];
          [first [ discriminate H
                 | injection H as H; vm_compute in H; discriminate H ] |]);
  by apply elem_of_nil in H.

Section ServiceMore.
Context (X : externals).

(** X14. The prober only asks: it changes no file and takes no draw, sends
    at most the one describe request for the stack it was given, and the
    only exceptions it lets through are those that are not [ClientError]s. *)
Theorem stack_exists_read_only stack_name st :
  (stack_exists X stack_name st).1.2 = st
  /\ (remote_requests (stack_exists X stack_name st).2 = []
      \/ remote_requests (stack_exists X stack_name st).2 = [DescribeStacks stack_name])
  /\ match (stack_exists X stack_name st).1.1 with
     | Raise e => is_client_error e = false
     | _ => True
     end.
Proof.
  destruct (stack_exists X stack_name st) as [[o st'] tr] eqn:E. revert E.
  unfold stack_exists, try_except_ClientError, bind, client, call, print, emit,
    ret, raise.
  repeat case_match; intros; simpl in *; simplify_eq; simpl; split_and?; auto.
Qed.

(** X15. [create_stack] returns exactly when the client, the create request
    and the wait all succeeded, and only then has it printed that the stack
    was created; in every other case it ends the process with status 2.
    The wait is requested only when the create request was accepted, and no
    file or draw is touched. *)
Theorem create_stack_success_iff stack_name body parameters st :
  let create := CreateStack stack_name body parameters CAPABILITIES in
  let wait := WaitStackCreateComplete stack_name 10 in
  let '(o, st', tr) := create_stack X stack_name body parameters st in
  st' = st
  /\ (o = Ret tt \/ o = Exit 2)
  /\ (o = Ret tt
      <-> boto3_client X = None /\ remote X create = None /\ remote X wait = None)
  /\ (Printed ("Stack " +:+ stack_name +:+ " created!") ∈ tr -> o = Ret tt)
  /\ (wait ∈ remote_requests tr -> remote X create = None).
Proof.
  intros create wait.
  destruct (boto3_client X) as [e|] eqn:Hc.
  - rewrite (create_stack_no_client X _ _ _ _ e Hc).
    split_and!; [done | by right | split; [done | by intros [? _]] | |];
      intros Hin; no_member Hin.
  - rewrite (create_stack_run X _ _ _ _ Hc). fold create wait.
    destruct (remote X create) as [e1|]; [| destruct (remote X wait) as [e2|]].
    + split_and!; [done | by right | split; [done | by intros (_ & ? & _)] | |];
        intros Hin; simpl in Hin; no_member Hin.
    + split_and!; [done | by right | split; [done | by intros (_ & _ & ?)] | | done].
      intros Hin; no_member Hin.
    + split_and!; [done | by left | by split | done | done].
Qed.

End ServiceMore.

Section ChangeSetMore.
Context (X : externals).

(** X16. [create_change_set] returns exactly when the client, the create
    request and the wait all succeeded; in every other case it ends the
    process with status 2.  The wait is requested only when the create
    request was accepted.  No file is touched, and the six draws of the name
    are taken as soon as a client is there, also when the request fails. *)
Theorem create_change_set_success_iff stack_name body parameters st :
  exists suffix,
    id_generator X 6 default_chars st
    = (Ret suffix, State (fs st) (draws st + 6), [])
    /\ let name := stack_name +:+ "-" +:+ suffix in
       let create := CreateChangeSet stack_name body parameters name CAPABILITIES in
       let wait := WaitChangeSetCreateComplete name stack_name 10 in
       let '(o, st', tr) := create_change_set X stack_name body parameters st in
       fs st' = fs st
       /\ draws st' = match boto3_client X with
                      | None => draws st + 6
                      | Some _ => draws st
                      end
       /\ (o = Ret tt \/ o = Exit 2)
       /\ (o = Ret tt
           <-> boto3_client X = None /\ remote X create = None
               /\ remote X wait = None)
       /\ (wait ∈ remote_requests tr -> remote X create = None).
Proof.
  destruct (id_generator_run X 6 default_chars st) as (suffix & Hid & _); [done |].
  exists suffix. split; [done |]. intros name create wait.
  destruct (boto3_client X) as [e|] eqn:Hc.
  - rewrite (create_change_set_no_client X _ _ _ _ e Hc).
    split_and!; [done | done | by right | split; [done | by intros [? _]] |].
    intros Hin. no_member Hin.
  - rewrite (create_change_set_run X _ _ _ _ _ _ Hc Hid). fold name create wait.
    destruct (remote X create) as [e1|]; [| destruct (remote X wait) as [e2|]].
    + split_and!;
        [done | done | by right | split; [done | by intros (_ & ? & _)] |].
      intros Hin. simpl in Hin. no_member Hin.
    + split_and!;
        [done | done | by right | split; [done | by intros (_ & _ & ?)] | done].
    + split_and!; [done | done | by left | by split | done].
Qed.

End ChangeSetMore.

(** ** The files and the names of [init_variables] *)

(** X17. On files that can be read when they exist (the only files of the
    model), [init_variables] never changes a file and never raises.  When it
    returns, it has printed nothing, the three files exist, the stack body
    is the text of the template and the file name is the last component of
    the template path.  Otherwise it ends the process with status 2 after
    one line, which names one of the three files, and that file is missing. *)
Theorem init_variables_returns_or_names_a_missing_file env t st :
  let '(o, st', tr) := init_variables env t st in
  st' = st
  /\ match o with
     | Ret init =>
         tr = []
         /\ is_Some (fs st !! values_file_of env)
         /\ is_Some (fs st !! json_file_of t)
         /\ fs st !! t = Some (stackBody init)
         /\ valuesFile init = values_file_of env
         /\ templateFileName init = t_file_name_of t
         /\ jsonFile init = json_file_of t
     | Raise _ => False
     | Exit c =>
         c = 2%Z
         /\ exists file,
              tr = [not_a_file file]
              /\ fs st !! file = None
              /\ file ∈ [values_file_of env; t; json_file_of t]
     end.
Proof.
  rewrite init_variables_run.
  destruct (fs st !! values_file_of env) as [vtext|] eqn:Hv.
  - destruct (fs st !! t) as [body|] eqn:Ht.
    + destruct (fs st !! json_file_of t) as [ptext|] eqn:Hj.
      * split_and!; eauto.
      * split_and!; [done | done |]. exists (json_file_of t).
        split_and!; [done | done |]. do 2 apply list_elem_of_further.
        apply list_elem_of_here.
    + split_and!; [done | done |]. exists t.
      split_and!; [done | done |]. apply list_elem_of_further, list_elem_of_here.
  - split_and!; [done | done |]. exists (values_file_of env).
    split_and!; [done | done | apply list_elem_of_here].
Qed.

Lemma str_length_app (s t : string) :
  String.length (s +:+ t) = String.length s + String.length t.
Proof.
  induction s as [|c s IH]; [done |].
  rewrite PyStrFacts.str_app_cons. simpl. by rewrite IH.
Qed.

Lemma str_app_inv_r (s1 s2 r : string) : s1 +:+ r = s2 +:+ r -> s1 = s2.
Proof.
  revert s2. induction s1 as [|c s1 IH]; intros s2 Heq.
  - destruct s2 as [|c s2]; [done |]. exfalso.
    apply (f_equal String.length) in Heq.
    rewrite !str_length_app in Heq. simpl in Heq. lia.
  - destruct s2 as [|d s2].
    + exfalso. apply (f_equal String.length) in Heq.
      rewrite !str_length_app in Heq. simpl in Heq. lia.
    + rewrite !PyStrFacts.str_app_cons in Heq. injection Heq as -> Heq.
      by rewrite (IH s2 Heq).
Qed.

(** X18. The environment name can be read back from each name that is made
    with it: two different environment names give different values-file
    paths and, for the same template, different stack names and different
    output file names.  (These are names, compared as text; two path texts
    can still lead to one file.) *)
Theorem names_separate_environments env1 env2 t :
  (values_file_of env1 = values_file_of env2 -> env1 = env2)
  /\ (stack_name_of env1 t = stack_name_of env2 t -> env1 = env2)
  /\ (stack_name_of env1 t +:+ ".json" = stack_name_of env2 t +:+ ".json"
      -> env1 = env2).
Proof.
  assert (forall e1 e2, stack_name_of e1 t = stack_name_of e2 t -> e1 = e2) as Hstack.
  { unfold stack_name_of. intros e1 e2 Heq.
    apply (inj (String.append "ct-")) in Heq.
    by apply str_app_inv_r in Heq. }
  split_and!.
  - unfold values_file_of. intros Heq.
    apply (inj (String.append "cf_vars/")) in Heq.
    by apply str_app_inv_r in Heq.
  - apply Hstack.
  - intros Heq. apply Hstack. by apply str_app_inv_r in Heq.
Qed.

(** ** The further properties on concrete runs *)



Lemma save_to_file_unserializable_truncates_demo :
  save_to_file Demo2.X_deep "ct-prod-base-vpc-stack" Demo2.deep "json" Demo.st
  = (Exit 2,
     State (<["ct-prod-base-vpc-stack.json" := EmptyString]> Demo.files) 0,
     [Printed "An error occurred during the save of json file: maximum recursion depth exceeded"]).
Proof.
  apply (save_to_file_unserializable_truncates Demo2.X_deep "ct-prod-base-vpc-stack"
           Demo2.deep "json" Demo.st
           (Exn OtherError "maximum recursion depth exceeded")).
  - reflexivity.
  - vm_compute. reflexivity.
Defined.

Lemma save_to_file_read_back_demo :
  exists st',
    save_to_file Demo.X "ct-prod-base-vpc-stack" (Demo.parameters_for "shared") "json"
      Demo.st = (Ret tt, st', [])
    /\ open_read "ct-prod-base-vpc-stack.json" st'
       = (Ret (Demo.dumped_for "shared"), st', [])
    /\ (forall p, p <> "ct-prod-base-vpc-stack.json" ->
                  fs st' !! p = fs Demo.st !! p)
    /\ draws st' = draws Demo.st.
Proof.
  apply (save_to_file_read_back Demo.X "ct-prod-base-vpc-stack"
           (Demo.parameters_for "shared") "json" Demo.st (Demo.dumped_for "shared")).
  - reflexivity.
  - reflexivity.
Defined.

Lemma merge_key_order_demo :
  exists merged,
    merge_vars_file Demo.X Demo.init Demo.st = (Ret (PyDict merged), Demo.st, [])
    /\ PyDict.keys merged
       = PyDict.keys Demo.custom
         ++ filter (fun k => k ∉ PyDict.keys Demo.custom) (PyDict.keys Demo.common).
Proof.
  apply (merge_key_order Demo.X Demo.init Demo.st Demo.common Demo.custom).
  - exact demo_holds_common.
  - exact demo_holds_custom.
Defined.

Lemma merge_agreeing_defaults_demo :
  merge_vars_file Demo.X Demo2.init_common Demo.st
  = (Ret (PyDict Demo.common), Demo.st, []).
Proof.
  apply (merge_agreeing_defaults Demo.X Demo2.init_common Demo.st Demo.common
           Demo.common).
  - exact demo_holds_common.
  - exact demo_holds_common.
  - intros k v Hk. exact Hk.
Defined.

Lemma missing_shared_defaults_exits_2_demo :
  main Demo.X (Demo.argv "deploy") Demo2.st_no_common
  = (Exit 2, Demo2.st_no_common,
     [Printed ("An error has occurred merging the vars files: "
               +:+ "[Errno 2] No such file or directory: 'cf_vars/common.yml'")]).
Proof.
  apply (missing_shared_defaults_exits_2 Demo.X "compile_and_execute_template.py"
           ["-e"; "prod"; "-t"; "templates/vpc.yaml"; "-a"; "deploy"]
           [("-e", "prod"); ("-t", "templates/vpc.yaml"); ("-a", "deploy")] []
           Demo2.st_no_common).
  - reflexivity.
  - reflexivity.
  - reflexivity.
  - vm_compute. eauto.
  - vm_compute. eauto.
  - vm_compute. eauto.
  - vm_compute. reflexivity.
Defined.

Lemma id_generator_add_demo :
  exists s1 st1 s2 st2,
    id_generator Demo.X 2 default_chars Demo.st = (Ret s1, st1, [])
    /\ id_generator Demo.X 4 default_chars st1 = (Ret s2, st2, [])
    /\ draws st1 = draws Demo.st + 2
    /\ id_generator Demo.X (2 + 4) default_chars Demo.st = (Ret (s1 +:+ s2), st2, []).
Proof.
  apply (id_generator_add Demo.X 2 4 default_chars Demo.st). discriminate.
Defined.
